(** * getgo: version resolution, the current-version pointer and profile lines

    A shallow embedding of the [getgo] command (package [main]: the command
    file and [path.go]) together with the parts of the Go standard library it
    calls: [strings], [path/filepath], [os] and [bufio].

    Conventions.
    - Go strings are [string]; a Go [int] that is only carried around is [Z].
    - [runtime.GOOS] and [runtime.GOARCH] are fields of a [runtime] record.
    - Paths follow the Unix rules of [path/filepath] (separator [/]).
    - The file system is a finite map from cleaned path strings to nodes;
      it is threaded explicitly through every operation that touches it.
    - [log.Fatal] ends the process: commands return an exit value that records
      which call site ended them. *)

From Stdlib Require Import Ascii Bool Arith ZArith Lia.
From Stdlib Require String.
From stdpp Require Import base option list strings gmap fin_maps.

Open Scope stdpp_scope.

#[local] Arguments String.append !s1 s2 : simpl nomatch.

(** ** Package [strings] *)

Module gostrings.

(** [strings.HasPrefix(s, prefix)]. *)
Definition HasPrefix (s prefix : string) : bool := String.prefix prefix s.

(** [strings.Contains(s, substr)]: [substr] occurs somewhere in [s]. *)
Fixpoint Contains (s substr : string) : bool :=
  String.prefix substr s ||
  match s with
  | EmptyString => false
  | String _ s' => Contains s' substr
  end.

(** [strings.HasSuffix(s, suffix)]. *)
Fixpoint HasSuffix (s suffix : string) : bool :=
  bool_decide (s = suffix) ||
  match s with
  | EmptyString => false
  | String _ s' => HasSuffix s' suffix
  end.

Definition is_upper (a : ascii) : bool :=
  (65 <=? nat_of_ascii a) && (nat_of_ascii a <=? 90).

Definition is_lower (a : ascii) : bool :=
  (97 <=? nat_of_ascii a) && (nat_of_ascii a <=? 122).

Definition lower (a : ascii) : ascii :=
  if is_upper a then ascii_of_nat (nat_of_ascii a + 32) else a.

Definition upper (a : ascii) : ascii :=
  if is_lower a then ascii_of_nat (nat_of_ascii a - 32) else a.

Fixpoint map (f : ascii -> ascii) (s : string) : string :=
  match s with
  | EmptyString => EmptyString
  | String a s' => String (f a) (map f s')
  end.

(** [strings.ToLower] and [strings.ToUpper] on ASCII text: the letters
    [A]-[Z] and [a]-[z] change case, every other byte is kept. *)
Definition ToLower : string -> string := map lower.
Definition ToUpper : string -> string := map upper.

(** [strings.Split(s, sep)] for a one-byte separator. *)
Fixpoint Split (s : string) (sep : ascii) : list string :=
  match s with
  | EmptyString => [EmptyString]
  | String a s' =>
      if decide (a = sep) then EmptyString :: Split s' sep
      else match Split s' sep with
           | h :: t => String a h :: t
           | [] => [String a EmptyString]
           end
  end.

(** [strings.Join(elems, sep)]. *)
Fixpoint Join (elems : list string) (sep : string) : string :=
  match elems with
  | [] => EmptyString
  | [e] => e
  | e :: rest => e +:+ sep +:+ Join rest sep
  end.

End gostrings.

(** ** The release catalog *)

Record runtime := { GOOS : string; GOARCH : string }.

(** [type Version struct]: one archive of a release. *)
Module Version.
Record t := {
  Filename : string;
  OS : string;
  Arch : string;
  Version : string;
  Sha256 : string;
  Size : Z;
  Kind : string
}.
End Version.

(** [type Release struct]. *)
Module Release.
Record t := {
  Version : string;
  Stable : bool;
  Versions : list Version.t
}.
End Release.

(** [isValidArchive]. *)
Definition isValidArchive (rt : runtime) (v : Version.t) : bool :=
  let goos := GOOS rt in
  let goarch := GOARCH rt in
  let goarch :=
    if bool_decide (goos = "linux") && bool_decide (goarch = "arm")
    then "armv6l" else goarch in
  if bool_decide (Version.OS v = goos) && bool_decide (Version.Arch v = goarch)
     && bool_decide (Version.Kind v = "archive")
     && negb (bool_decide (Version.Sha256 v = EmptyString))
  then true
  else false.

(** Errors. [errno] is the cause carried by an [*os.PathError] or
    [*os.LinkError]. *)
Inductive errno := ENOENT | EEXIST | ENOTEMPTY | EINVAL | EISDIR | ENOTDIR | EACCES | ELOOP.

Inductive error :=
| PathError (op path : string) (e : errno)
| LinkError (op old new : string) (e : errno)
| ErrHomeNotDefined                      (* os.UserHomeDir: $HOME is not defined *)
| SyscallError (call : string) (e : errno)
| Errorf (format : string) (cause : error)
    (* fmt.Errorf(format, ..., err): the format with its %s filled in, and
       the error printed at its final %v *)
| ErrHTTPStatus (status : Z)             (* "http request failed: %d %s" *)
| ErrNet                                 (* an error of http.Get *)
| ErrJSON                                (* an error of the JSON decoder *)
| ErrTooLong                             (* bufio.ErrTooLong *)
| ErrUnsupportedShell (shell : string)   (* "%q is not a supported shell" *)
| ErrExternal (what : string)            (* a failed external command *)
| errExitCleanly.

#[global] Instance errno_eq_dec : EqDecision errno.
Proof. solve_decision. Defined.

#[global] Instance error_eq_dec : EqDecision error.
Proof. solve_decision. Defined.

(** The answer of the catalog endpoint to the one GET of [listVersions]. *)
Inductive Response :=
| GetFailed                                    (* http.Get returned an error *)
| Answer (StatusCode : Z) (body : option (list Release.t)).
                                               (* [None]: the body is not valid JSON *)

(** The two loops of [listVersions], appending to [versions] in the order of
    the decoded document. *)
Fixpoint appendValid (rt : runtime) (stable : bool)
    (files : list Version.t) (versions : list Version.t) : list Version.t :=
  match files with
  | [] => versions
  | v :: files' =>
      if stable && isValidArchive rt v
      then appendValid rt stable files' (versions ++ [v])
      else appendValid rt stable files' versions
  end.

Fixpoint filterReleases (rt : runtime) (releases : list Release.t)
    (versions : list Version.t) : list Version.t :=
  match releases with
  | [] => versions
  | release :: releases' =>
      filterReleases rt releases'
        (appendValid rt (Release.Stable release) (Release.Versions release) versions)
  end.

(** [listVersions]. *)
Definition listVersions (rt : runtime) (res : Response) : list Version.t + error :=
  match res with
  | GetFailed => inr ErrNet
  | Answer v body =>
      if negb (v =? 200)%Z then inr (ErrHTTPStatus v)
      else match body with
           | None => inr (Errorf "version json parse failed: %v" ErrJSON)
           | Some releases => inl (filterReleases rt releases [])
           end
  end.

(** The prefix test shared by [removeCmd] and [installCmd]:
    [if !strings.HasPrefix(version, "go") { version = "go" + version }]. *)
Definition normalize (version : string) : string :=
  if negb (gostrings.HasPrefix version "go") then "go" +:+ version else version.

(** ** Package [path/filepath] (Unix) *)

Module filepath.

Definition Separator : ascii := "/"%char.

(** The element loop of [Clean]. [out] holds the elements kept so far, the
    last one first; [rooted] says whether the path starts with a slash. *)
Fixpoint cleanElems (rooted : bool) (out : list string) (elems : list string)
    : list string :=
  match elems with
  | [] => out
  | e :: rest =>
      if decide (e = EmptyString) then cleanElems rooted out rest
      else if decide (e = ".") then cleanElems rooted out rest
      else if decide (e = "..") then
        match out with
        | top :: below =>
            if decide (top = "..") then cleanElems rooted (".." :: out) rest
            else cleanElems rooted below rest
        | [] =>
            if rooted then cleanElems rooted [] rest
            else cleanElems rooted [".."] rest
        end
      else cleanElems rooted (e :: out) rest
  end.

Definition IsAbs (path : string) : bool := gostrings.HasPrefix path "/".

(** [filepath.Clean]: single separators, no [.] elements, no inner [..]
    elements, no [..] at the start of a rooted path; the empty result is
    written [.]. *)
Definition Clean (path : string) : string :=
  if decide (path = EmptyString) then "."
  else
    let rooted := IsAbs path in
    let out := rev (cleanElems rooted [] (gostrings.Split path Separator)) in
    if rooted then "/" +:+ gostrings.Join out "/"
    else match out with
         | [] => "."
         | _ => gostrings.Join out "/"
         end.

(** [filepath.Join]: the elements from the first non-empty one on are joined
    with the separator and the result is cleaned; no element or only empty
    elements give the empty string. *)
Fixpoint Join (elem : list string) : string :=
  match elem with
  | [] => EmptyString
  | e :: rest =>
      if decide (e = EmptyString) then Join rest
      else Clean (gostrings.Join elem "/")
  end.

Fixpoint hasSeparator (s : string) : bool :=
  match s with
  | EmptyString => false
  | String a s' => bool_decide (a = Separator) || hasSeparator s'
  end.

(** [path[:i+1]] for the index [i] of the last separator of [path]. *)
Fixpoint upToLastSeparator (s : string) : string :=
  match s with
  | EmptyString => EmptyString
  | String a s' =>
      if hasSeparator s then String a (upToLastSeparator s') else EmptyString
  end.

(** [filepath.Dir]. *)
Definition Dir (path : string) : string := Clean (upToLastSeparator path).

(** The path without its trailing separators. *)
Fixpoint stripTrailingSeparators (s : string) : string :=
  match s with
  | EmptyString => EmptyString
  | String a s' =>
      match stripTrailingSeparators s' with
      | EmptyString => if decide (a = Separator) then EmptyString else String a EmptyString
      | t => String a t
      end
  end.

(** What follows the last separator. *)
Fixpoint afterLastSeparator (s : string) : string :=
  match s with
  | EmptyString => EmptyString
  | String a s' =>
      if hasSeparator s' then afterLastSeparator s'
      else if decide (a = Separator) then s' else s
  end.

(** [filepath.Base]: the last element of the path; [.] for the empty path,
    a single separator for a path of separators only. *)
Definition Base (path : string) : string :=
  if decide (path = EmptyString) then "."
  else
    let path := afterLastSeparator (stripTrailingSeparators path) in
    if decide (path = EmptyString) then "/" else path.

End filepath.

(** ** Package [os]: environment and file system *)

(** What a path of the store names. *)
Inductive node :=
| Directory
| Regular (content : string)
| Link (target : string).

#[global] Instance node_eq_dec : EqDecision node.
Proof. solve_decision. Defined.

(** The state outside the process. [files] is keyed by cleaned paths; symbolic
    links are followed where an operation opens a file (its last element),
    not inside the directory part of a path. [locked] lists the paths whose
    directory entry this process may neither create nor remove (a read-only
    parent directory, an immutable entry). [vars] is the process
    environment. *)
Record World := {
  files : gmap string node;
  locked : gset string;
  vars : gmap string string
}.

Module os.

Definition setFiles (w : World) (fs : gmap string node) : World :=
  {| files := fs; locked := locked w; vars := vars w |}.

Definition Getenv (w : World) (key : string) : string :=
  default EmptyString (vars w !! key).

(** [os.Setenv]: a name that is empty or holds [=] or a zero byte, and a
    value that holds a zero byte, are refused. *)
Definition Setenv (w : World) (key value : string) : World * option error :=
  let NUL := String "000"%char EmptyString in
  if bool_decide (key = EmptyString) || gostrings.Contains key "="
     || gostrings.Contains key NUL || gostrings.Contains value NUL
  then (w, Some (SyscallError "setenv" EINVAL))
  else ({| files := files w; locked := locked w;
           vars := <[key := value]> (vars w) |}, None).

(** [os.UserHomeDir] on a Unix host: the value of [$HOME], an error when
    it is empty or unset. *)
Definition UserHomeDir (w : World) : string + error :=
  let v := Getenv w "HOME" in
  if negb (bool_decide (v = EmptyString)) then inl v else inr ErrHomeNotDefined.

(** [os.IsNotExist]. *)
Definition IsNotExist (err : error) : bool :=
  match err with
  | PathError _ _ ENOENT => true
  | LinkError _ _ _ ENOENT => true
  | _ => false
  end.

(** [path] lies strictly below the directory [dir]. *)
Definition under (dir path : string) : bool :=
  negb (bool_decide (path = dir))
  && String.prefix (if bool_decide (dir = "/") then "/" else dir +:+ "/") path.

(** [path] is [dir] itself or lies below it. *)
Definition within (dir path : string) : bool :=
  bool_decide (path = dir) || under dir path.

Definition hasChildren (w : World) (path : string) : bool :=
  negb (bool_decide (map_Forall (fun k _ => under path k = false) (files w))).

(** [os.Readlink]. *)
Definition Readlink (w : World) (name : string) : string + error :=
  match files w !! name with
  | None => inr (PathError "readlink" name ENOENT)
  | Some (Link target) => inl target
  | Some _ => inr (PathError "readlink" name EINVAL)
  end.

(** [os.Remove]: removes the named file, link or empty directory. *)
Definition Remove (w : World) (name : string) : World * option error :=
  match files w !! name with
  | None => (w, Some (PathError "remove" name ENOENT))
  | Some n =>
      if bool_decide (name ∈ locked w)
      then (w, Some (PathError "remove" name EACCES))
      else if bool_decide (n = Directory) && hasChildren w name
      then (w, Some (PathError "remove" name ENOTEMPTY))
      else (setFiles w (delete name (files w)), None)
  end.

(** [os.Symlink(oldname, newname)]: [newname] becomes a link whose stored
    target is the string [oldname]; nothing is required of [oldname]. *)
Definition Symlink (w : World) (oldname newname : string) : World * option error :=
  match files w !! newname with
  | Some _ => (w, Some (LinkError "symlink" oldname newname EEXIST))
  | None =>
      match files w !! filepath.Dir newname with
      | None => (w, Some (LinkError "symlink" oldname newname ENOENT))
      | Some Directory =>
          if bool_decide (newname ∈ locked w)
          then (w, Some (LinkError "symlink" oldname newname EACCES))
          else (setFiles w (<[newname := Link oldname]> (files w)), None)
      | Some _ => (w, Some (LinkError "symlink" oldname newname ENOTDIR))
      end
  end.

(** Every entry at or below [path] may be unlinked. *)
Definition removable (w : World) (path : string) : bool :=
  bool_decide (map_Forall (fun k _ => within path k = true -> k ∉ locked w) (files w)).

(** [RemoveAll] refuses a path whose last element is a dot. *)
Definition endsWithDot (path : string) : bool :=
  bool_decide (path = ".") || gostrings.HasSuffix path "/.".

(** [os.RemoveAll]: removes [path] and everything below it that it can, and
    reports an error when something is left; a path that does not exist is
    not an error. *)
Definition RemoveAll (w : World) (path : string) : World * option error :=
  if bool_decide (path = EmptyString) then (w, None)
  else if endsWithDot path then (w, Some (PathError "RemoveAll" path EINVAL))
  else
    match files w !! path with
    | None => (w, None)
    | Some _ =>
        let fs' :=
          filter (fun kv => ~ (within path kv.1 = true /\ removable w kv.1 = true))
                 (files w) in
        if bool_decide (map_Forall (fun k _ => within path k = false) fs')
        then (setFiles w fs', None)
        else (setFiles w fs', Some (PathError "unlinkat" path EACCES))
    end.

(** The file a name opens: links in the last element are followed, at most
    [fuel] of them. *)
Fixpoint follow (fs : gmap string node) (fuel : nat) (name : string) : string + errno :=
  match fs !! name with
  | Some (Link target) =>
      match fuel with
      | O => inr ELOOP
      | S fuel' =>
          follow fs fuel'
            (if filepath.IsAbs target then filepath.Clean target
             else filepath.Join [filepath.Dir name; target])
      end
  | _ => inl name
  end.

Definition maxSymlinks : nat := 40.
#[global] Arguments maxSymlinks : simpl never.

(** An open file is the path of the store it stands for. *)

(** [os.OpenFile(name, os.O_RDONLY, 0600)]. A directory opens too; reading
    it fails. *)
Definition OpenFile_RDONLY (w : World) (name : string) : string + error :=
  match follow (files w) maxSymlinks name with
  | inr e => inr (PathError "open" name e)
  | inl q =>
      match files w !! q with
      | None => inr (PathError "open" name ENOENT)
      | Some _ => inl q
      end
  end.

(** Everything a reader of the open file gets. *)
Definition ReadAll (w : World) (f : string) : string + error :=
  match files w !! f with
  | Some (Regular content) => inl content
  | _ => inr (PathError "read" f EISDIR)
  end.

(** [os.OpenFile(name, os.O_APPEND|os.O_WRONLY|os.O_CREATE, 0600)]: a file
    that does not exist is created empty. *)
Definition OpenFile_APPEND (w : World) (name : string) : World * (string + error) :=
  match follow (files w) maxSymlinks name with
  | inr e => (w, inr (PathError "open" name e))
  | inl q =>
      match files w !! q with
      | Some (Regular _) => (w, inl q)
      | Some _ => (w, inr (PathError "open" name EISDIR))
      | None =>
          match files w !! filepath.Dir q with
          | None => (w, inr (PathError "open" name ENOENT))
          | Some Directory =>
              if bool_decide (q ∈ locked w)
              then (w, inr (PathError "open" name EACCES))
              else (setFiles w (<[q := Regular EmptyString]> (files w)), inl q)
          | Some _ => (w, inr (PathError "open" name ENOTDIR))
          end
      end
  end.

(** [f.WriteString(s)] on a file opened for appending. *)
Definition WriteString (w : World) (f s : string) : World * option error :=
  match files w !! f with
  | Some (Regular content) => (setFiles w (<[f := Regular (content +:+ s)]> (files w)), None)
  | _ => (w, Some (PathError "write" f EINVAL))
  end.

End os.

(** ** Package [bufio]: scanning lines *)

Module bufio.

Definition LF : ascii := "010"%char.
Definition CR : ascii := "013"%char.

(** [MaxScanTokenSize = 64 * 1024]: the size of the scanner's buffer. *)
Definition MaxScanTokenSize : Z := 64 * 1024.

(** [dropCR]: a final carriage return is not part of the line. *)
Fixpoint dropCR (data : string) : string :=
  match data with
  | EmptyString => EmptyString
  | String a EmptyString => if decide (a = CR) then EmptyString else data
  | String a rest => String a (dropCR rest)
  end.

(** The pieces [ScanLines] cuts the input into, before [dropCR]: the text
    between line feeds; what follows the last line feed is a line when it is
    not empty. *)
Fixpoint rawLines (s : string) : list string :=
  match s with
  | EmptyString => []
  | String a s' =>
      if decide (a = LF) then EmptyString :: rawLines s'
      else match rawLines s' with
           | [] => [String a EmptyString]
           | h :: t => String a h :: t
           end
  end.

(** A line that fills the buffer before its line feed is read stops the
    scanner with [ErrTooLong]. *)
Definition tooLong (raw : string) : bool :=
  (MaxScanTokenSize <=? Z.of_nat (String.length raw))%Z.
#[global] Arguments tooLong : simpl never.

End bufio.

(** ** Package [main]: the version commands *)

(** [versionRoot]. *)
Definition versionRoot (w : World) (version : string) : string + error :=
  match os.UserHomeDir w with
  | inr err => inr (Errorf "failed to get home directory: %v" err)
  | inl homedir => inl (filepath.Join [homedir; "sdk"; version])
  end.

(** [setDefaultVersion]. The result of [os.Remove] is discarded. *)
Definition setDefaultVersion (w : World) (version : string) : World * option error :=
  match versionRoot w version with
  | inr err => (w, Some err)
  | inl goroot =>
      match versionRoot w "go" with
      | inr err => (w, Some err)
      | inl defaultGoRoot =>
          let '(w1, _) := os.Remove w defaultGoRoot in
          match os.Symlink w1 goroot defaultGoRoot with
          | (w2, Some err) => (w2, Some err)
          | (w2, None) => (w2, None)
          end
      end
  end.

(** [isDefault]. [inr err] stands for the process ending in
    [log.Fatal(err)]. *)
Definition isDefault (w : World) (version : string) : bool + error :=
  match versionRoot w version with
  | inr err => inr err
  | inl goroot =>
      match versionRoot w "go" with
      | inr err => inr err
      | inl golink =>
          match os.Readlink w golink with
          | inr err => if os.IsNotExist err then inl false else inr err
          | inl defaultGoRoot =>
              if decide (goroot = defaultGoRoot) then inl true else inl false
          end
      end
  end.

(** How [removeCmd] ends. Every end is a call of [log.Fatal] or [log.Fatalf],
    which prints the message and leaves with [os.Exit(1)]. *)
Inductive removeExit :=
| RemoveUsage                                     (* log.Fatal(usage) *)
| RemoveFatal (err : error)                       (* log.Fatal(err) *)
| RemoveDefault (version : string)                (* "%s: can't remove default version" *)
| RemoveFailed (version : string) (err : error)   (* "%s: remove failed: %v" *)
| Removed (version : string).                     (* "%s: removed" *)

#[global] Instance removeExit_eq_dec : EqDecision removeExit.
Proof. solve_decision. Defined.

(** The exit status of the process: [log.Fatal] and [log.Fatalf] call
    [os.Exit(1)]. *)
Definition removeStatus (e : removeExit) : Z :=
  match e with
  | RemoveUsage | RemoveFatal _ | RemoveDefault _ | RemoveFailed _ _ | Removed _ => 1
  end.

(** [removeCmd], with [os.Args] as [Args]. *)
Definition removeCmd (w : World) (Args : list string) : World * removeExit :=
  match Args with
  | [_; _; version] =>
      let version := normalize version in
      match isDefault w version with
      | inr err => (w, RemoveFatal err)
      | inl true => (w, RemoveDefault version)
      | inl false =>
          match versionRoot w version with
          | inr err => (w, RemoveFatal err)
          | inl goroot =>
              match os.RemoveAll w goroot with
              | (w', Some err) => (w', RemoveFailed version err)
              | (w', None) => (w', Removed version)
              end
          end
      end
  | _ => (w, RemoveUsage)
  end.

(** A Go result that may also be a run-time panic of an index expression. *)
Inductive outcome (A : Type) :=
| Value (a : A)
| Failed (err : error)
| IndexOutOfRange (index length : nat).
Arguments Value {A} a.
Arguments Failed {A} err.
Arguments IndexOutOfRange {A} index length.

Definition isUpdate (version : string) : bool :=
  bool_decide (version = "up") || bool_decide (version = "latest")
  || bool_decide (version = "update").

Definition isTip (version : string) : bool :=
  bool_decide (version = "tip") || bool_decide (version = "gotip").

(** The first statements of [installCmd], up to the end of its [switch]: the
    version and the changelist [CL] it goes on with. [Failed err] stands for
    [log.Fatalf("update: %v", err)]. *)
Definition installSwitch (rt : runtime) (Args : list string) (res : Response)
    : outcome (string * string) :=
  let Args := if length Args =? 2 then Args ++ ["latest"] else Args in
  match Args !! 1 with
  | None => IndexOutOfRange 1 (length Args)
  | Some arg =>
      let version := gostrings.ToLower arg in
      if isUpdate version then
        match listVersions rt res with
        | inr err => Failed err
        | inl versions =>
            match versions !! 0 with
            | None => IndexOutOfRange 0 (length versions)
            | Some v => Value (Version.Version v, EmptyString)
            end
        end
      else if isTip version then
        Value (version,
               if length Args =? 3 then default EmptyString (Args !! 2)
               else EmptyString)
      else Value (version, EmptyString)
  end.

(** How [installCmd] ends. *)
Inductive installExit :=
| InstallUpdateFailed (err : error)               (* log.Fatalf("update: %v", err) *)
| InstallFatal (err : error)                      (* log.Fatal(err) *)
| InstallFailed (version : string) (err : error)  (* log.Fatalf("%s: %v", version, err) *)
| InstallPanic (index length : nat)               (* index out of range *)
| Installed (version : string) (needSetup : bool). (* "%s: already set default" *)

Section Commands.

(** What the commands get from outside the modelled state: the look-up of
    the [go] binary, the installer package and the processes they start. *)
Variable rt : runtime.
Variable findGo : World -> string.
Variable Install : World -> string -> string -> World * option error.
Variable run : World -> string -> list string -> World * option error.
Variable runOut : World -> string -> list string -> string + error.

(** [gobinPath]. [inr err] stands for [log.Fatal(err)]. *)
Definition gobinPath (w : World) (gobin : string) : string + error :=
  match os.UserHomeDir w with
  | inr err => inr err
  | inl homedir =>
      if negb (bool_decide (gobin = EmptyString)) then
        let binPath := match runOut w gobin ["env"; "GOBIN"] with
                       | inl out => out | inr _ => EmptyString end in
        if bool_decide (binPath = EmptyString) then
          let goPath := match runOut w gobin ["env"; "GOPATH"] with
                        | inl out => out | inr _ => EmptyString end in
          let goPath := if bool_decide (goPath = EmptyString)
                        then filepath.Join [homedir; "go"] else goPath in
          inl (filepath.Join [goPath; "bin"])
        else inl binPath
      else inl (filepath.Join [homedir; "go"; "bin"])
  end.

(** [bootstrap]: the pair is [(gobin, latestVersion)]. *)
Definition bootstrap (w : World) (res : Response) : World * outcome (string * string) :=
  match listVersions rt res with
  | inr err => (w, Failed err)
  | inl versions =>
      match versions !! 0 with
      | None => (w, IndexOutOfRange 0 (length versions))
      | Some v =>
          let latestVersion := Version.Version v in
          match versionRoot w latestVersion with
          | inr err => (w, Failed (Errorf ("bootstrap " +:+ latestVersion +:+ ": %v") err))
          | inl goroot =>
              match Install w goroot latestVersion with
              | (w', Some err) =>
                  (w', Failed (Errorf ("bootstrap " +:+ latestVersion
                                       +:+ ": download failed: %v") err))
              | (w', None) =>
                  (w', Value (filepath.Join [goroot; "bin"; "go"], latestVersion))
              end
          end
      end
  end.

(** [installCmd]. [res] answers the request of its own [listVersions],
    [res'] the one of [bootstrap]. *)
Definition installCmd (w : World) (Args : list string) (res res' : Response)
    : World * installExit :=
  match installSwitch rt Args res with
  | IndexOutOfRange i n => (w, InstallPanic i n)
  | Failed err => (w, InstallUpdateFailed err)
  | Value (version, CL) =>
      let version := normalize version in
      let gobin := findGo w in
      let boot :=
        if bool_decide (gobin = EmptyString) then
          match bootstrap w res' with
          | (w1, Value (gobin, _)) => (w1, Value (gobin, true))
          | (w1, Failed err) => (w1, Failed err)
          | (w1, IndexOutOfRange i n) => (w1, IndexOutOfRange i n)
          end
        else (w, Value (gobin, false)) in
      match boot with
      | (w1, IndexOutOfRange i n) => (w1, InstallPanic i n)
      | (w1, Failed err) => (w1, InstallFatal err)
      | (w1, Value (gobin, needSetup)) =>
          match run w1 gobin ["get"; "golang.org/dl/" +:+ version] with
          | (w2, Some err) => (w2, InstallFailed version err)
          | (w2, None) =>
              match gobinPath w2 gobin with
              | inr err => (w2, InstallFatal err)
              | inl bin =>
                  let download :=
                    if negb (bool_decide (CL = EmptyString))
                    then run w2 (filepath.Join [bin; version]) ["download"; CL]
                    else run w2 (filepath.Join [bin; version]) ["download"] in
                  match download with
                  | (w3, Some err) => (w3, InstallFailed version err)
                  | (w3, None) =>
                      match setDefaultVersion w3 version with
                      | (w4, Some err) => (w4, InstallFailed version err)
                      | (w4, None) => (w4, Installed version needSetup)
                      end
                  end
              end
          end
      end
  end.

End Commands.

(** ** Package [main]: [path.go] *)

Definition bashConfig : string := ".bash_profile".
Definition zshConfig : string := ".zshrc".

(** [getHomeDir]. *)
Definition getHomeDir (w : World) : string + error :=
  match os.UserHomeDir w with
  | inr err => inr err
  | inl homedir => inl homedir
  end.

(** The loop of [checkStringExistsFile] over the lines the scanner yields;
    the pair is what the function returns. *)
Fixpoint scanLines (value : string) (raws : list string) : bool * option error :=
  match raws with
  | [] => (false, None)
  | raw :: rest =>
      if bufio.tooLong raw then (false, Some ErrTooLong)
      else if decide (bufio.dropCR raw = value) then (true, None)
      else scanLines value rest
  end.

(** [checkStringExistsFile]. *)
Definition checkStringExistsFile (w : World) (filename value : string)
    : bool * option error :=
  match os.OpenFile_RDONLY w filename with
  | inr err => if os.IsNotExist err then (false, None) else (false, Some err)
  | inl file =>
      match os.ReadAll w file with
      | inr err => (false, Some err)
      | inl content => scanLines value (bufio.rawLines content)
      end
  end.

Section Profile.

(** Declared in the platform files of the package, which are not part of
    the sources at hand: the line ending written around a profile line, the
    name of the running shell, and the process that sets a user variable on
    Windows. *)
Variable rt : runtime.
Variable lineEnding : string.
Variable currentShell : string.
Variable run : World -> string -> list string -> World * option error.

(** [appendToFile]. *)
Definition appendToFile (w : World) (filename value : string) : World * option error :=
  match checkStringExistsFile w filename value with
  | (_, Some err) => (w, Some err)
  | (true, None) => (w, None)
  | (false, None) =>
      match os.OpenFile_APPEND w filename with
      | (w1, inr err) => (w1, Some err)
      | (w1, inl f) => os.WriteString w1 f (lineEnding +:+ value +:+ lineEnding)
      end
  end.

(** [isShell]. *)
Definition isShell (name : string) : bool := gostrings.Contains currentShell name.

(** [persistEnvVarWindows]. *)
Definition persistEnvVarWindows (w : World) (name value : string) : World * option error :=
  let q := String "034"%char EmptyString in
  run w "powershell"
    ["-command";
     "[Environment]::SetEnvironmentVariable(" +:+ q +:+ name +:+ q +:+ ", "
       +:+ q +:+ value +:+ q +:+ ", " +:+ q +:+ "User" +:+ q +:+ ")"].

(** [shellConfigFile]. *)
Definition shellConfigFile (w : World) : string + error :=
  match getHomeDir w with
  | inr err => inr err
  | inl home =>
      if isShell "bash" then inl (filepath.Join [home; bashConfig])
      else if isShell "zsh" then inl (filepath.Join [home; zshConfig])
      else inr (ErrUnsupportedShell currentShell)
  end.

(** The part of [persistEnvVar] after its Windows branch. *)
Definition persistInProfile (w : World) (name value : string) : World * option error :=
  match shellConfigFile w with
  | inr err => (w, Some err)
  | inl rc =>
      let line := "export " +:+ gostrings.ToUpper name +:+ "=" +:+ value in
      match appendToFile w rc line with
      | (w1, Some err) => (w1, Some err)
      | (w1, None) => os.Setenv w1 (gostrings.ToUpper name) value
      end
  end.

(** [persistEnvVar]. *)
Definition persistEnvVar (w : World) (name value : string) : World * option error :=
  if bool_decide (GOOS rt = "windows") then
    match persistEnvVarWindows w name value with
    | (w1, Some err) => (w1, Some err)
    | (w1, None) =>
        if isShell "cmd.exe" || isShell "powershell.exe"
        then os.Setenv w1 (gostrings.ToUpper name) value
        else persistInProfile w1 name value
    end
  else persistInProfile w name value.

End Profile.

(** ** Package [main]: the other commands *)

(** How [statusCmd] ends. *)
Inductive statusExit :=
| StatusFatal (err : error)                   (* log.Fatal(err) *)
| StatusPanic (index length : nat)            (* index out of range in bootstrap *)
| StatusBootstrapped (version : string)       (* the setup hint, then os.Exit(0) *)
| StatusShown (version goroot : string).      (* log.Printf("%s (%s)", version, goroot) *)

(** How [listCmd] ends: the lines it printed, each a mark and a version. *)
Inductive listExit :=
| ListFatal (err : error)
| Listed (lines : list (string * string)).

(** The loop of [listCmd] over the catalog. *)
Fixpoint listLines (rt : runtime) (installed : gset string) (currentVersion : string)
    (requireAll : bool) (versions : list Version.t) : list (string * string) :=
  match versions with
  | [] => []
  | v :: rest =>
      if negb (isValidArchive rt v)
      then listLines rt installed currentVersion requireAll rest
      else if bool_decide (Version.Version v ∈ installed) then
        (if bool_decide (currentVersion = Version.Version v)
         then ("*", Version.Version v) else ("+", Version.Version v))
        :: listLines rt installed currentVersion requireAll rest
      else if requireAll then
        (" ", Version.Version v) :: listLines rt installed currentVersion requireAll rest
      else listLines rt installed currentVersion requireAll rest
  end.

(** The first loop of [listCmd]: [installed[filepath.Base(p)] = true]. *)
Fixpoint installedNames (dirs : list string) (installed : gset string) : gset string :=
  match dirs with
  | [] => installed
  | p :: rest => installedNames rest ({[ filepath.Base p ]} ∪ installed)
  end.

(** What a line of standard input gave the scanner of [prompt]. *)
Inductive scanned :=
| ScanLine (text : string)
| ScanEnd (err : option error).   (* end of input, or a read error *)

(** [prompt], as [setupCmd] reaches it: its context is [context.TODO()],
    which is never done, so the answer of the reading goroutine is the
    result. *)
Definition prompt (stdin : scanned) (query defaultAnswer : string) (interactive : bool)
    : string * option error :=
  if negb interactive then (defaultAnswer, None)
  else match stdin with
       | ScanEnd err => (EmptyString, err)
       | ScanLine answer =>
           (if bool_decide (answer = EmptyString) then defaultAnswer else answer, None)
       end.

(** How [setupCmd] ends. *)
Inductive setupExit :=
| SetupFatal (err : error)    (* log.Fatal(err) *)
| SetupDone.

Section Programs.

(** What the commands get from outside the modelled state, and what the
    platform files of the package declare. *)
Variable rt : runtime.
Variable findGo : World -> string.
Variable Install : World -> string -> string -> World * option error.
Variable run : World -> string -> list string -> World * option error.
Variable runOut : World -> string -> list string -> string + error.
Variable Glob : World -> string -> list string + error.
Variable lineEnding : string.
Variable currentShell : string.
Variable pathVar : string.
Variable envSeparator : ascii.
Variable persistEnvChangesForSession : World -> option error.

(** [statusCmd]. *)
Definition statusCmd (w : World) (res : Response) : World * statusExit :=
  let gobin := findGo w in
  if bool_decide (gobin = EmptyString) then
    match bootstrap rt Install w res with
    | (w1, IndexOutOfRange i n) => (w1, StatusPanic i n)
    | (w1, Failed err) => (w1, StatusFatal err)
    | (w1, Value (_, version)) =>
        match setDefaultVersion w1 version with
        | (w2, Some err) => (w2, StatusFatal err)
        | (w2, None) => (w2, StatusBootstrapped version)
        end
    end
  else
    match runOut w gobin ["version"] with
    | inr err => (w, StatusFatal err)
    | inl version =>
        match runOut w gobin ["env"; "GOROOT"] with
        | inr err => (w, StatusFatal err)
        | inl goroot => (w, StatusShown version goroot)
        end
    end.

(** [listCmd]. The error of [versionRoot] is overwritten by the result of
    [filepath.Glob]; [base] is then the empty string. *)
Definition listCmd (w : World) (Args : list string) (res : Response) : listExit :=
  let base := match versionRoot w EmptyString with
              | inl base => base
              | inr _ => EmptyString
              end in
  match Glob w (filepath.Join [base; "go?*"]) with
  | inr err => ListFatal err
  | inl dirs =>
      let installed := installedNames dirs ∅ in
      let gobin := findGo w in
      let current :=
        if negb (bool_decide (gobin = EmptyString))
        then runOut w gobin ["tool"; "dist"; "version"]
        else inl EmptyString in
      match current with
      | inr err => ListFatal err
      | inl currentVersion =>
          let requireAll :=
            (length Args =? 3)
            && (bool_decide (Args !! 2 = Some "all") || bool_decide (Args !! 2 = Some "-a")) in
          match listVersions rt res with
          | inr err => ListFatal err
          | inl versions =>
              Listed (listLines rt installed currentVersion requireAll versions)
          end
      end
  end.

(** The loop of [isInPATH]. *)
Fixpoint inPaths (dir : string) (paths : list string) : bool :=
  match paths with
  | [] => false
  | d :: rest => if decide (d = dir) then true else inPaths dir rest
  end.

(** [isInPATH]. *)
Definition isInPATH (w : World) (dir : string) : bool :=
  let p := os.Getenv w "PATH" in
  inPaths dir (gostrings.Split p envSeparator).

(** [appendToPATH]. *)
Definition appendToPATH (w : World) (value : string) : World * option error :=
  if isInPATH w value then (w, None)
  else persistEnvVar rt lineEnding currentShell run w "PATH"
         (pathVar +:+ String envSeparator EmptyString +:+ value).

(** [setupGOPATH]. *)
Definition setupGOPATH (stdin : scanned) (w : World) (interactive : bool)
    : World * option error :=
  match prompt stdin "Would you like us to setup your GOPATH? Y/n" "Y" interactive with
  | (_, Some err) => (w, Some err)
  | (answer, None) =>
      if negb (bool_decide (gostrings.ToLower answer = "y")) then (w, Some errExitCleanly)
      else
        match os.UserHomeDir w with
        | inr err => (w, Some err)
        | inl home =>
            let gopath := os.Getenv w "GOPATH" in
            let set :=
              if bool_decide (gopath = EmptyString) then
                let gopath := filepath.Join [home; "go"] in
                match persistEnvVar rt lineEnding currentShell run w "GOPATH" gopath with
                | (w1, Some err) => (w1, inr err)
                | (w1, None) => (w1, inl gopath)
                end
              else (w, inl gopath) in
            match set with
            | (w1, inr err) => (w1, Some err)
            | (w1, inl gopath) =>
                match versionRoot w1 "go" with
                | inr err => (w1, Some err)
                | inl defaultGoRoot =>
                    match appendToPATH w1 (filepath.Join [defaultGoRoot; "bin"]) with
                    | (w2, Some err) => (w2, Some err)
                    | (w2, None) =>
                        match appendToPATH w2 (filepath.Join [gopath; "bin"]) with
                        | (w3, Some err) => (w3, Some err)
                        | (w3, None) => (w3, persistEnvChangesForSession w3)
                        end
                    end
                end
            end
        end
  end.

(** [setupCmd]. *)
Definition setupCmd (stdin : scanned) (w : World) (Args : list string) : World * setupExit :=
  let interactive :=
    if (length Args =? 3) && bool_decide (Args !! 2 = Some "-s") then false else true in
  match setupGOPATH stdin w interactive with
  | (w1, Some err) => (w1, SetupFatal err)
  | (w1, None) => (w1, SetupDone)
  end.

(** How the process ends. *)
Inductive mainExit :=
| MainStatus (e : statusExit)
| MainList (e : listExit)
| MainRemove (e : removeExit)
| MainSetup (e : setupExit)
| MainInstall (e : installExit)
| MainUsage                       (* log.Fatal(usage) *)
| MainPanic (index length : nat).  (* os.Args[1] on an empty os.Args *)

(** [main]. [res] answers the first request to the catalog, [res'] the
    second one, which only [installCmd] can make. *)
Definition main (stdin : scanned) (w : World) (Args : list string) (res res' : Response)
    : World * mainExit :=
  let Args := if length Args =? 1 then Args ++ ["status"] else Args in
  match Args !! 1 with
  | None => (w, MainPanic 1 (length Args))
  | Some arg =>
      if bool_decide (arg = "status") then
        let '(w1, e) := statusCmd w res in (w1, MainStatus e)
      else if bool_decide (arg = "list") then (w, MainList (listCmd w Args res))
      else if bool_decide (arg = "remove") then
        let '(w1, e) := removeCmd w Args in (w1, MainRemove e)
      else if bool_decide (arg = "setup") then
        let '(w1, e) := setupCmd stdin w Args in (w1, MainSetup e)
      else if gostrings.HasPrefix arg "-" then (w, MainUsage)
      else
        let '(w1, e) := installCmd rt findGo Install run runOut w Args res res' in
        (w1, MainInstall e)
  end.

End Programs.

(** * Vocabulary of the properties *)

(** The sequence the specification describes: the installable archives of
    the stable releases, in the order of the document. *)
Definition installable (rt : runtime) (releases : list Release.t) : list Version.t :=
  flat_map (fun r => if Release.Stable r
                     then List.filter (isValidArchive rt) (Release.Versions r)
                     else [])
           releases.

(** A version name: one path element, as the directories under [sdk] are
    named. *)
Definition isName (v : string) : Prop :=
  v <> EmptyString /\ v <> "." /\ v <> ".." /\ filepath.hasSeparator v = false.

#[global] Instance isName_dec v : Decision (isName v).
Proof. unfold isName. apply _. Defined.

(** The [sdk] directory of a home directory. *)
Definition sdkDir (home : string) : string := filepath.Clean (home +:+ "/sdk").

(** [setCurrent] as the specification words it, for a known install directory
    and pointer path: of the errors of the removal only "does not exist" is passed
    over, any other one is the result. *)
Definition setCurrent_claimed (w : World) (goroot link : string) : World * option error :=
  match os.Remove w link with
  | (w1, Some err) =>
      if os.IsNotExist err then os.Symlink w1 goroot link else (w1, Some err)
  | (w1, None) => os.Symlink w1 goroot link
  end.

Fixpoint hasLF (s : string) : bool :=
  match s with
  | EmptyString => false
  | String a s' => bool_decide (a = bufio.LF) || hasLF s'
  end.

(** A line of text: not empty, no line feed in it, no carriage return at its
    end. *)
Definition isLine (value : string) : Prop :=
  value <> EmptyString /\ hasLF value = false
  /\ gostrings.HasSuffix value (String bufio.CR EmptyString) = false.

#[global] Instance isLine_dec value : Decision (isLine value).
Proof. unfold isLine. apply _. Defined.

(** The number of scanned lines that equal [value]. *)
Definition occurrencesIn (value : string) (raws : list string) : nat :=
  length (List.filter (fun raw => bool_decide (bufio.dropCR raw = value)) raws).

(** The number of lines of the file [filename] that equal [value]; [0] when
    the file cannot be read. *)
Definition occurrences (w : World) (filename value : string) : nat :=
  match os.OpenFile_RDONLY w filename with
  | inl f =>
      match os.ReadAll w f with
      | inl content => occurrencesIn value (bufio.rawLines content)
      | inr _ => 0
      end
  | inr _ => 0
  end.

(** The two line endings of the platform files: a line feed, alone or after
    a carriage return. *)
Definition isLineEnding (lineEnding : string) : Prop :=
  lineEnding = String bufio.LF EmptyString
  \/ lineEnding = String bufio.CR (String bufio.LF EmptyString).

#[global] Instance isLineEnding_dec le : Decision (isLineEnding le).
Proof. unfold isLineEnding. apply _. Defined.

(** Every entry of the file system that lies strictly above [path] is a
    directory: [path] is reached without passing through a link or a file, so
    that the entry the kernel resolves the path to is the one stored under
    the path itself. *)
Definition plainPath (w : World) (path : string) : Prop :=
  map_Forall (fun k n => os.under k path = true -> n = Directory) (files w).

(** * Concrete inputs *)

(** A home directory with two installed versions and the pointer on
    [go1.16]. *)
Definition demo : World :=
  {| files := list_to_map
       [("/", Directory); ("/home", Directory); ("/home/u", Directory);
        ("/home/u/sdk", Directory);
        ("/home/u/sdk/go1.15", Directory);
        ("/home/u/sdk/go1.15/bin", Directory);
        ("/home/u/sdk/go1.15/bin/go", Regular "go1.15");
        ("/home/u/sdk/go1.16", Directory);
        ("/home/u/sdk/go1.16/bin", Directory);
        ("/home/u/sdk/go1.16/bin/go", Regular "go1.16");
        ("/home/u/sdk/go", Link "/home/u/sdk/go1.16")];
     locked := ∅;
     vars := {[ "HOME" := "/home/u" ]} |}.

(** The same with the pointer path taken by a directory that is not empty. *)
Definition demoDirectory : World :=
  os.setFiles demo
    (<["/home/u/sdk/go/bin" := Directory]>
       (<["/home/u/sdk/go" := Directory]> (files demo))).

(** The same files with [$HOME] unset. *)
Definition demoNoHome : World :=
  {| files := files demo; locked := ∅; vars := ∅ |}.

(** A home directory with a profile file that does not end in a line feed. *)
Definition demoProfile : World :=
  os.setFiles demo (<["/home/u/.bash_profile" := Regular "# profile"]> (files demo)).

Definition exportLine : string := "export GOPATH=/home/u/go".

Definition LF : string := String bufio.LF EmptyString.

Definition linux : runtime := {| GOOS := "linux"; GOARCH := "amd64" |}.

Definition noRun (w : World) (cmd : string) (arg : list string) : World * option error :=
  (w, Some (ErrExternal cmd)).

(** A catalog document: a release candidate first, then two stable
    releases, each with a source archive, an installer and archives. *)
Definition archive (version os arch kind sha256 : string) : Version.t :=
  {| Version.Filename := version +:+ "." +:+ os +:+ "-" +:+ arch;
     Version.OS := os; Version.Arch := arch; Version.Version := version;
     Version.Sha256 := sha256; Version.Size := 0; Version.Kind := kind |}.

Definition demoCatalog : list Release.t :=
  [ {| Release.Version := "go1.17rc1"; Release.Stable := false;
       Release.Versions := [archive "go1.17rc1" "linux" "amd64" "archive" "5a"] |};
    {| Release.Version := "go1.16.5"; Release.Stable := true;
       Release.Versions :=
         [archive "go1.16.5" EmptyString EmptyString "source" "7b";
          archive "go1.16.5" "darwin" "amd64" "archive" "be";
          archive "go1.16.5" "linux" "amd64" "installer" "c1";
          archive "go1.16.5" "linux" "amd64" "archive" "b1"] |};
    {| Release.Version := "go1.15.13"; Release.Stable := true;
       Release.Versions := [archive "go1.15.13" "linux" "amd64" "archive" "3d"] |} ].

(** A catalog without a stable release for the host. *)
Definition demoCatalogNoStable : list Release.t :=
  [ {| Release.Version := "go1.17rc1"; Release.Stable := false;
       Release.Versions := [archive "go1.17rc1" "linux" "amd64" "archive" "5a"] |};
    {| Release.Version := "go1.16.5"; Release.Stable := true;
       Release.Versions := [archive "go1.16.5" "darwin" "amd64" "archive" "be"] |} ].

(** Surroundings in which every outside step succeeds. *)
Definition goFound (w : World) : string := "/usr/local/go/bin/go".
Definition okInstall (w : World) (goroot version : string) : World * option error := (w, None).
Definition okRun (w : World) (cmd : string) (arg : list string) : World * option error := (w, None).
Definition noOut (w : World) (cmd : string) (arg : list string) : string + error := inl EmptyString.

(** No [go] binary on the search path. *)
Definition noGo (w : World) : string := EmptyString.

(** The four command words of [main]. *)
Definition isCommandWord (arg : string) : Prop :=
  arg = "status" \/ arg = "list" \/ arg = "remove" \/ arg = "setup".

(** [s] holds the byte [a]. *)
Fixpoint containsByte (a : ascii) (s : string) : bool :=
  match s with
  | EmptyString => false
  | String b s' => bool_decide (b = a) || containsByte a s'
  end.

(** What [listCmd] prints for one archive of the catalog. *)
Definition listedLine (installed : gset string) (currentVersion : string)
    (requireAll : bool) (v : Version.t) : list (string * string) :=
  if bool_decide (Version.Version v ∈ installed) then
    [(if bool_decide (currentVersion = Version.Version v) then "*" else "+",
      Version.Version v)]
  else if requireAll then [(" ", Version.Version v)] else [].

(** A byte repeated. *)
Fixpoint repeatByte (n : nat) (a : ascii) : string :=
  match n with
  | O => EmptyString
  | S n' => String a (repeatByte n' a)
  end.

(** A profile file whose only line is 64 KiB long. *)
Definition demoLongProfile : World :=
  os.setFiles demo
    (<["/home/u/.bash_profile" := Regular (repeatByte (Z.to_nat 65536) "a")]> (files demo)).

(** The home directory of [demo] with [GOPATH] set and both [bin]
    directories in [PATH]. *)
Definition demoConfigured : World :=
  {| files := files demo; locked := ∅;
     vars := <["PATH" := "/usr/bin:/home/u/sdk/go/bin:/home/u/go/bin"]>
               (<["GOPATH" := "/home/u/go"]> {[ "HOME" := "/home/u" ]}) |}.

(** Two directories under [sdk], one of them named in [demoCatalog], and a
    [go] command of that version. *)
Definition demoGlob (w : World) (pattern : string) : list string + error :=
  inl ["/home/u/sdk/go1.15"; "/home/u/sdk/go1.16.5"].
Definition demoOut (w : World) (cmd : string) (arg : list string) : string + error :=
  inl "go1.16.5".

(** Two lines in one value. *)
Definition twoLines : string := "export A=1" +:+ LF +:+ "export B=2".

(** * Properties *)

(** ** Strings *)

Lemma append_assoc (a b c : string) : (a +:+ b) +:+ c = a +:+ (b +:+ c).
Proof. induction a as [|x a IH]; simpl; [reflexivity | now f_equal]. Qed.

Lemma append_nil_r (a : string) : a +:+ EmptyString = a.
Proof. induction a as [|x a IH]; simpl; [reflexivity | now f_equal]. Qed.

Lemma append_inj_l (p a b : string) : p +:+ a = p +:+ b -> a = b.
Proof. induction p as [|x p IH]; simpl; [tauto | intros [= H]; auto]. Qed.

Lemma prefix_empty (s : string) : String.prefix EmptyString s = true.
Proof. now destruct s. Qed.

Lemma prefix_append (p s : string) : String.prefix p (p +:+ s) = true.
Proof.
  induction p as [|x p IH]; simpl; [now destruct s |].
  destruct (ascii_dec x x); [assumption | congruence].
Qed.

Lemma prefix_inv (p s : string) :
  String.prefix p s = true -> exists r, s = p +:+ r.
Proof.
  revert s. induction p as [|x p IH]; intros s H.
  - exists s. reflexivity.
  - destruct s as [|y s]; simpl in H; [discriminate |].
    destruct (ascii_dec x y) as [->|]; [| discriminate].
    destruct (IH _ H) as [r ->]. exists r. reflexivity.
Qed.

(** ** The installability predicate *)

(** C3. An archive is installable exactly when its [os] is the host's, its
    [arch] is the host's (on a Linux host with architecture [arm], the tag
    [armv6l]), its [kind] is [archive] and its [sha256] is not empty. *)
Theorem isValidArchive_iff (rt : runtime) (v : Version.t) :
  isValidArchive rt v = true <->
  Version.OS v = GOOS rt
  /\ ((GOOS rt = "linux" /\ GOARCH rt = "arm" /\ Version.Arch v = "armv6l")
      \/ (~ (GOOS rt = "linux" /\ GOARCH rt = "arm") /\ Version.Arch v = GOARCH rt))
  /\ Version.Kind v = "archive"
  /\ Version.Sha256 v <> EmptyString.
Proof.
  unfold isValidArchive.
  set (arch := if bool_decide (GOOS rt = "linux") && bool_decide (GOARCH rt = "arm")
               then "armv6l" else GOARCH rt).
  assert (Harch : forall a, a = arch <->
            (GOOS rt = "linux" /\ GOARCH rt = "arm" /\ a = "armv6l")
            \/ (~ (GOOS rt = "linux" /\ GOARCH rt = "arm") /\ a = GOARCH rt)).
  { intros a. subst arch. repeat case_bool_decide; simpl; intuition congruence. }
  cbv zeta.
  match goal with |- (if ?b then true else false) = true <-> _ =>
    replace (if b then true else false) with b by (now destruct b) end.
  rewrite !andb_true_iff, !bool_decide_eq_true, negb_true_iff, bool_decide_eq_false.
  rewrite <- Harch. tauto.
Qed.

(** ** Normalizing a version specifier *)

Lemma normalize_prefixed (v : string) : gostrings.HasPrefix (normalize v) "go" = true.
Proof.
  unfold normalize. destruct (gostrings.HasPrefix v "go") eqn:E; cbn [negb].
  - exact E.
  - apply (prefix_append "go").
Qed.



(** ** The filtered catalog *)

Lemma appendValid_spec rt stable files acc :
  appendValid rt stable files acc
  = acc ++ (if stable then List.filter (isValidArchive rt) files else []).
Proof.
  revert acc. induction files as [|v files IH]; intros acc; simpl.
  - destruct stable; now rewrite app_nil_r.
  - destruct stable; simpl.
    + destruct (isValidArchive rt v); rewrite IH; [now rewrite <- List.app_assoc | reflexivity].
    + rewrite IH. reflexivity.
Qed.

Lemma filterReleases_spec rt releases acc :
  filterReleases rt releases acc = acc ++ installable rt releases.
Proof.
  revert acc. induction releases as [|r rs IH]; intros acc; simpl.
  - now rewrite app_nil_r.
  - rewrite IH, appendValid_spec, <- List.app_assoc. reflexivity.
Qed.

Lemma listVersions_ok rt res versions :
  listVersions rt res = inl versions ->
  exists releases, res = Answer 200 (Some releases) /\ versions = installable rt releases.
Proof.
  destruct res as [|code [releases|]]; simpl; try discriminate.
  - destruct (Z.eqb_spec code 200) as [->|]; simpl; [| discriminate].
    intros [= <-]. exists releases. now rewrite filterReleases_spec.
  - destruct (code =? 200)%Z; discriminate.
Qed.

Lemma filter_head {A} (f : A -> bool) (l : list A) (x : A) (t : list A) :
  List.filter f l = x :: t ->
  exists l1 l2, l = l1 ++ x :: l2 /\ f x = true /\ List.filter f l1 = [] /\ List.filter f l2 = t.
Proof.
  induction l as [|y l IH]; simpl; [discriminate |].
  destruct (f y) eqn:Hy.
  - intros [= -> <-]. exists [], l. simpl. auto.
  - intros H. destruct (IH H) as (l1 & l2 & -> & Hx & H1 & H2).
    exists (y :: l1), l2. simpl. rewrite Hy. repeat split; auto.
Qed.

(** The head of the filtered sequence is the first installable archive of the
    first stable release that has one, in the order of the document. *)
Lemma installable_head rt releases first rest :
  installable rt releases = first :: rest ->
  exists before r after earlier later,
    releases = before ++ r :: after
    /\ installable rt before = []
    /\ Release.Stable r = true
    /\ Release.Versions r = earlier ++ first :: later
    /\ List.filter (isValidArchive rt) earlier = []
    /\ isValidArchive rt first = true.
Proof.
  induction releases as [|r rs IH]; simpl; [discriminate |].
  destruct (Release.Stable r) eqn:Hst.
  - destruct (List.filter (isValidArchive rt) (Release.Versions r)) as [|x t] eqn:Hf.
    + simpl. intros H. destruct (IH H) as (b & r' & a & e & l & -> & Hb & ? & ? & ? & ?).
      exists (r :: b), r', a, e, l. simpl. rewrite Hst, Hf, Hb. repeat split; auto.
    + simpl. intros [= -> <-].
      destruct (filter_head _ _ _ _ Hf) as (l1 & l2 & Hv & Hx & H1 & _).
      exists [], r, rs, l1, l2. simpl. repeat split; auto.
  - simpl. intros H. destruct (IH H) as (b & r' & a & e & l & -> & Hb & ? & ? & ? & ?).
    exists (r :: b), r', a, e, l. simpl. rewrite Hst, Hb. repeat split; auto.
Qed.

Lemma installSwitch_update rt a0 alias more res :
  isUpdate alias = true -> gostrings.ToLower alias = alias ->
  installSwitch rt (a0 :: alias :: more) res
  = match listVersions rt res with
    | inr err => Failed err
    | inl versions =>
        match versions !! 0 with
        | None => IndexOutOfRange 0 (length versions)
        | Some v => Value (Version.Version v, EmptyString)
        end
    end.
Proof.
  intros Hup Hlow. unfold installSwitch.
  assert ((if length (a0 :: alias :: more) =? 2
           then (a0 :: alias :: more) ++ ["latest"] else a0 :: alias :: more) !! 1
          = Some alias) as -> by (destruct more; reflexivity).
  rewrite Hlow, Hup. reflexivity.
Qed.

(** C5. When the filtered catalog is not empty, [up], [latest] and [update]
    all resolve to the version of its first entry, and the filtered catalog
    is the sequence of installable archives of stable releases in the order
    of the document: its first entry is preceded by no installable one. *)
Theorem update_aliases_take_first (rt : runtime) (res : Response) (a0 : string)
    (more : list string) (first : Version.t) (rest : list Version.t) :
  listVersions rt res = inl (first :: rest) ->
  installSwitch rt (a0 :: "up" :: more) res = Value (Version.Version first, EmptyString)
  /\ installSwitch rt (a0 :: "latest" :: more) res = Value (Version.Version first, EmptyString)
  /\ installSwitch rt (a0 :: "update" :: more) res = Value (Version.Version first, EmptyString)
  /\ exists releases before r after earlier later,
       res = Answer 200 (Some releases)
       /\ first :: rest = installable rt releases
       /\ releases = before ++ r :: after
       /\ installable rt before = []
       /\ Release.Stable r = true
       /\ Release.Versions r = earlier ++ first :: later
       /\ List.filter (isValidArchive rt) earlier = []
       /\ isValidArchive rt first = true.
Proof.
  intros H.
  repeat split; try (rewrite installSwitch_update by reflexivity; now rewrite H).
  destruct (listVersions_ok _ _ _ H) as (releases & -> & Heq).
  destruct (installable_head rt releases first rest (eq_sym Heq))
    as (b & r & a & e & l & ? & ? & ? & ? & ? & ?).
  exists releases, b, r, a, e, l. repeat split; auto.
Qed.

(** C9. When the filtered catalog is empty, the alias branch of [installCmd]
    and [bootstrap] both evaluate [versions[0]] on the empty sequence: the
    index is out of range and no error value is returned. *)
Theorem empty_catalog_index_out_of_range (rt : runtime) (findGo : World -> string)
    (Install : World -> string -> string -> World * option error)
    (run : World -> string -> list string -> World * option error)
    (runOut : World -> string -> list string -> string + error)
    (w : World) (a0 alias : string) (more : list string) (res res' : Response) :
  listVersions rt res = inl [] ->
  alias = "up" \/ alias = "latest" \/ alias = "update" ->
  installSwitch rt (a0 :: alias :: more) res = IndexOutOfRange 0 0
  /\ installCmd rt findGo Install run runOut w (a0 :: alias :: more) res res'
     = (w, InstallPanic 0 0)
  /\ bootstrap rt Install w res = (w, IndexOutOfRange 0 0).
Proof.
  intros H Halias.
  assert (installSwitch rt (a0 :: alias :: more) res = IndexOutOfRange 0 0) as Hsw.
  { destruct Halias as [->|[->| ->]];
      rewrite installSwitch_update by reflexivity; now rewrite H. }
  split; [exact Hsw |]. split.
  - unfold installCmd. now rewrite Hsw.
  - unfold bootstrap. now rewrite H.
Qed.

(** ** Paths of install directories *)

Lemma Split_nonempty s sep : gostrings.Split s sep <> [].
Proof.
  destruct s as [|a s]; simpl; [discriminate |].
  destruct (decide (a = sep)); [discriminate |].
  destruct (gostrings.Split s sep); discriminate.
Qed.

Lemma Split_append_sep (a b : string) (sep : ascii) :
  gostrings.Split (a +:+ String sep b) sep
  = gostrings.Split a sep ++ gostrings.Split b sep.
Proof.
  induction a as [|x a IH]; simpl.
  - destruct (decide (sep = sep)); [reflexivity | congruence].
  - destruct (decide (x = sep)); [now rewrite IH |].
    rewrite IH. pose proof (Split_nonempty a sep).
    destruct (gostrings.Split a sep); [congruence | reflexivity].
Qed.

Lemma Split_no_separator (v : string) :
  filepath.hasSeparator v = false -> gostrings.Split v filepath.Separator = [v].
Proof.
  induction v as [|x v IH]; simpl; [reflexivity |].
  intros H. apply orb_false_iff in H as [Hx Hv].
  apply bool_decide_eq_false in Hx.
  destruct (decide (x = filepath.Separator)); [contradiction |].
  now rewrite (IH Hv).
Qed.

Lemma cleanElems_app rooted out l1 l2 :
  filepath.cleanElems rooted out (l1 ++ l2)
  = filepath.cleanElems rooted (filepath.cleanElems rooted out l1) l2.
Proof.
  revert out. induction l1 as [|e l1 IH]; intros out; simpl; [reflexivity |].
  repeat case_decide; try apply IH.
  destruct out as [|top below]; [destruct rooted; apply IH |].
  case_decide; apply IH.
Qed.

Lemma cleanElems_name rooted out v :
  isName v -> filepath.cleanElems rooted out [v] = v :: out.
Proof.
  intros (H1 & H2 & H3 & _). simpl.
  repeat case_decide; try contradiction. reflexivity.
Qed.

Lemma Join_snoc (l : list string) (v : string) :
  l <> [] -> gostrings.Join (l ++ [v]) "/" = gostrings.Join l "/" +:+ "/" +:+ v.
Proof.
  induction l as [|e l IH]; [congruence |]. intros _.
  destruct l as [|e' l]; [reflexivity |].
  change (gostrings.Join ((e :: e' :: l) ++ [v]) "/")
    with (e +:+ "/" +:+ gostrings.Join ((e' :: l) ++ [v]) "/").
  rewrite IH by discriminate.
  change (gostrings.Join (e :: e' :: l) "/")
    with (e +:+ "/" +:+ gostrings.Join (e' :: l) "/").
  now rewrite !append_assoc.
Qed.

Lemma IsAbs_append (a b : string) :
  a <> EmptyString -> filepath.IsAbs (a +:+ b) = filepath.IsAbs a.
Proof.
  destruct a as [|x a]; [congruence |]. intros _.
  unfold filepath.IsAbs, gostrings.HasPrefix.
  change (String x a +:+ b) with (String x (a +:+ b)).
  cbn [String.prefix]. rewrite !prefix_empty. reflexivity.
Qed.

(** Cleaning a path that ends in a version name appends the name to the
    cleaned directory. *)
Lemma Clean_append_name (dir v : string) :
  dir <> EmptyString -> isName v ->
  filepath.Clean (dir +:+ "/sdk/" +:+ v) = filepath.Clean (dir +:+ "/sdk") +:+ "/" +:+ v.
Proof.
  intros Hdir Hv. unfold filepath.Clean.
  assert (Hne : forall s, dir +:+ s <> EmptyString) by (destruct dir; [congruence | discriminate]).
  destruct (decide (dir +:+ "/sdk/" +:+ v = EmptyString)) as [E|_]; [now apply Hne in E |].
  destruct (decide (dir +:+ "/sdk" = EmptyString)) as [E|_]; [now apply Hne in E |].
  rewrite !IsAbs_append by assumption.
  change (dir +:+ "/sdk/" +:+ v) with (dir +:+ String filepath.Separator ("sdk" +:+ String filepath.Separator v)).
  change (dir +:+ "/sdk") with (dir +:+ String filepath.Separator "sdk").
  rewrite !Split_append_sep, (Split_no_separator v) by apply Hv.
  change (gostrings.Split "sdk" filepath.Separator) with ["sdk"].
  rewrite !cleanElems_app, (cleanElems_name _ _ v Hv).
  set (st := filepath.cleanElems (filepath.IsAbs dir) [] (gostrings.Split dir filepath.Separator)).
  change (filepath.cleanElems (filepath.IsAbs dir) st ["sdk"]) with ("sdk" :: st).
  change (rev (v :: "sdk" :: st)) with (rev ("sdk" :: st) ++ [v]).
  assert (Hout : rev ("sdk" :: st) <> []).
  { simpl. destruct (rev st); discriminate. }
  rewrite Join_snoc by assumption.
  destruct (filepath.IsAbs dir).
  - now rewrite !append_assoc.
  - destruct (rev ("sdk" :: st)) as [|o os] eqn:E; [congruence |].
    destruct (rev ("sdk" :: st) ++ [v]) eqn:E'.
    + rewrite E in E'. discriminate.
    + rewrite E in E'. injection E' as <- <-.
      rewrite <- Join_snoc by discriminate. reflexivity.
Qed.

Lemma UserHomeDir_ok w home :
  os.UserHomeDir w = inl home -> home <> EmptyString.
Proof.
  unfold os.UserHomeDir. case_bool_decide; simpl; [discriminate |].
  now intros [= <-].
Qed.

Lemma versionRoot_name w home v :
  os.UserHomeDir w = inl home -> isName v ->
  versionRoot w v = inl (sdkDir home +:+ "/" +:+ v).
Proof.
  intros Hh Hv. unfold versionRoot. rewrite Hh.
  pose proof (UserHomeDir_ok _ _ Hh) as Hne.
  unfold filepath.Join. destruct (decide (home = EmptyString)); [contradiction |].
  unfold sdkDir. rewrite <- Clean_append_name by assumption. reflexivity.
Qed.

Lemma versionRoot_vars w w' v : vars w = vars w' -> versionRoot w v = versionRoot w' v.
Proof. intros H. unfold versionRoot, os.UserHomeDir, os.Getenv. now rewrite H. Qed.

Lemma versionRoot_home w v root :
  versionRoot w v = inl root -> exists home, os.UserHomeDir w = inl home.
Proof.
  unfold versionRoot. destruct (os.UserHomeDir w) as [home|]; [eauto | discriminate].
Qed.

Lemma isName_go : isName "go".
Proof. repeat split; discriminate. Qed.

(** Distinct version names have distinct install directories. *)
Lemma versionRoot_inj w u v ru rv :
  isName u -> isName v ->
  versionRoot w u = inl ru -> versionRoot w v = inl rv -> ru = rv -> u = v.
Proof.
  intros Hu Hv Eu Ev ->.
  destruct (versionRoot_home _ _ _ Eu) as [home Hh].
  rewrite (versionRoot_name _ _ _ Hh Hu) in Eu.
  rewrite (versionRoot_name _ _ _ Hh Hv) in Ev.
  rewrite <- Ev in Eu. injection Eu as Eu.
  now apply append_inj_l, (append_inj_l "/") in Eu.
Qed.

(** ** The current pointer *)

Lemma Remove_frame w name :
  locked (os.Remove w name).1 = locked w /\ vars (os.Remove w name).1 = vars w.
Proof.
  unfold os.Remove. destruct (files w !! name); [| auto].
  repeat case_match; auto.
Qed.

Lemma Remove_files w name :
  files (os.Remove w name).1 = files w
  \/ files (os.Remove w name).1 = delete name (files w).
Proof.
  unfold os.Remove. destruct (files w !! name); [| auto].
  repeat case_match; auto.
Qed.

Lemma Symlink_ok w old new w' :
  os.Symlink w old new = (w', None) ->
  files w !! new = None
  /\ files w' = <[new := Link old]> (files w)
  /\ locked w' = locked w /\ vars w' = vars w.
Proof.
  unfold os.Symlink. destruct (files w !! new) eqn:E; [discriminate |].
  repeat case_match; try discriminate. intros [= <-]. auto.
Qed.

Lemma Symlink_failed w old new w' err :
  os.Symlink w old new = (w', Some err) -> w' = w.
Proof.
  unfold os.Symlink. repeat case_match; intros [= <-]; congruence.
Qed.

(** What a successful [setDefaultVersion] leaves behind. *)
Lemma setDefaultVersion_ok w version w' :
  setDefaultVersion w version = (w', None) ->
  exists goroot link,
    versionRoot w version = inl goroot /\ versionRoot w "go" = inl link
    /\ files w' = <[link := Link goroot]> (delete link (files w))
    /\ locked w' = locked w /\ vars w' = vars w.
Proof.
  unfold setDefaultVersion.
  destruct (versionRoot w version) as [goroot|] eqn:E1; [| discriminate].
  destruct (versionRoot w "go") as [link|] eqn:E2; [| discriminate].
  destruct (os.Remove w link) as [w1 r] eqn:E3.
  destruct (os.Symlink w1 goroot link) as [w2 [err|]] eqn:E4; [discriminate |].
  intros [= <-]. exists goroot, link.
  apply Symlink_ok in E4 as (Hfree & Hf & Hl & Hv).
  pose proof (Remove_frame w link) as [Hl1 Hv1].
  pose proof (Remove_files w link) as Hf1.
  rewrite E3 in Hl1, Hv1, Hf1. simpl in *.
  repeat split; try congruence.
  rewrite Hf. destruct Hf1 as [Hf1|Hf1]; rewrite Hf1 in *; [| reflexivity].
  now rewrite delete_id.
Qed.

Lemma isDefault_after w version w' :
  setDefaultVersion w version = (w', None) -> isDefault w' version = inl true.
Proof.
  intros H. destruct (setDefaultVersion_ok _ _ _ H) as (goroot & link & E1 & E2 & Hf & _ & Hv).
  unfold isDefault.
  rewrite <- (versionRoot_vars w w') by congruence.
  rewrite <- (versionRoot_vars w w') by congruence.
  rewrite E1, E2. unfold os.Readlink. rewrite Hf, lookup_insert_eq.
  now destruct (decide (goroot = goroot)).
Qed.

(** The versions [isDefault] accepts are those whose install directory is the
    stored target of the pointer. *)
Lemma isDefault_true w version :
  isDefault w version = inl true <->
  exists goroot link,
    versionRoot w version = inl goroot /\ versionRoot w "go" = inl link
    /\ files w !! link = Some (Link goroot).
Proof.
  unfold isDefault, os.Readlink. split.
  - destruct (versionRoot w version) as [goroot|]; [| discriminate].
    destruct (versionRoot w "go") as [link|]; [| discriminate].
    destruct (files w !! link) as [[| |target]|] eqn:E; simpl; try discriminate.
    destruct (decide (goroot = target)) as [->|]; [| discriminate].
    intros _. eauto.
  - intros (goroot & link & -> & -> & ->).
    now destruct (decide (goroot = goroot)).
Qed.

Lemma isDefault_unique w u v :
  isName u -> isName v ->
  isDefault w u = inl true -> isDefault w v = inl true -> u = v.
Proof.
  intros Hu Hv Du Dv.
  apply isDefault_true in Du as (ru & l1 & Eu & El1 & F1).
  apply isDefault_true in Dv as (rv & l2 & Ev & El2 & F2).
  assert (l1 = l2) as -> by congruence.
  assert (ru = rv) by congruence.
  eapply versionRoot_inj; eauto.
Qed.

(** C2. For version names [v] and [v2]: after a successful
    [setDefaultVersion v], [isDefault v] is true; after a following successful
    [setDefaultVersion v2] with another name, [isDefault v] is false and
    [isDefault v2] is true; no two names are current at once, and the pointer
    is a link whose target is the install directory of [v2]. *)
Theorem setDefaultVersion_then_isDefault (w w1 w2 : World) (v v2 : string) :
  isName v -> isName v2 -> v2 <> v ->
  setDefaultVersion w v = (w1, None) ->
  setDefaultVersion w1 v2 = (w2, None) ->
  isDefault w1 v = inl true
  /\ isDefault w2 v = inl false
  /\ isDefault w2 v2 = inl true
  /\ (forall u u', isName u -> isName u' ->
        isDefault w2 u = inl true -> isDefault w2 u' = inl true -> u = u')
  /\ exists link target,
       versionRoot w2 "go" = inl link /\ versionRoot w2 v2 = inl target
       /\ files w2 !! link = Some (Link target).
Proof.
  intros Hv Hv2 Hne S1 S2.
  pose proof (isDefault_after _ _ _ S1) as D1.
  pose proof (isDefault_after _ _ _ S2) as D2.
  split; [exact D1 |]. split; [| split; [exact D2 | split]].
  - apply isDefault_true in D2 as (r2 & link & E2 & El & F).
    destruct (setDefaultVersion_ok _ _ _ S1) as (r & l & E & _ & _ & _ & Hvars1).
    destruct (setDefaultVersion_ok _ _ _ S2) as (_ & _ & _ & _ & _ & _ & Hvars2).
    assert (Er : versionRoot w2 v = inl r).
    { rewrite <- E. apply versionRoot_vars. congruence. }
    unfold isDefault, os.Readlink. rewrite Er, El, F.
    destruct (decide (r = r2)) as [->|]; [| reflexivity].
    exfalso. apply Hne. symmetry. eapply versionRoot_inj; eauto.
  - intros u u'. apply isDefault_unique.
  - apply isDefault_true in D2 as (r2 & link & E2 & El & F). eauto.
Qed.

(** ** Removing a version *)

Lemma RemoveAll_frame w path :
  locked (os.RemoveAll w path).1 = locked w /\ vars (os.RemoveAll w path).1 = vars w.
Proof. unfold os.RemoveAll. repeat case_match; auto. Qed.

(** [RemoveAll] touches nothing outside the tree it is given. *)
Lemma RemoveAll_outside w path k :
  os.within path k = false ->
  files (os.RemoveAll w path).1 !! k = files w !! k.
Proof.
  intros Hk. unfold os.RemoveAll. repeat case_match; try reflexivity; simpl;
    (apply option_eq; intros x; rewrite map_lookup_filter_Some; simpl;
     split; [tauto | intros; split; [assumption | intros [Hw _]; congruence]]).
Qed.

Lemma RemoveAll_absent w path :
  os.endsWithDot path = false -> files w !! path = None ->
  os.RemoveAll w path = (w, None).
Proof.
  intros Hd Hp. unfold os.RemoveAll. rewrite Hd, Hp. now case_bool_decide.
Qed.

Lemma within_inv dir k :
  dir <> "/" -> os.within dir k = true ->
  exists r, k = dir +:+ r /\ (r = EmptyString \/ exists r', r = "/" +:+ r').
Proof.
  intros Hd. unfold os.within, os.under. intros H.
  apply orb_true_iff in H as [H|H].
  - apply bool_decide_eq_true in H as ->. exists EmptyString.
    rewrite append_nil_r. auto.
  - apply andb_true_iff in H as [_ H].
    rewrite bool_decide_eq_false_2 in H by assumption.
    apply prefix_inv in H as [r' ->]. exists ("/" +:+ r').
    rewrite append_assoc. eauto.
Qed.

Lemma within_refl dir : os.within dir dir = true.
Proof. unfold os.within. now rewrite bool_decide_eq_true_2. Qed.

Lemma name_split (u v ru rv : string) :
  filepath.hasSeparator u = false -> filepath.hasSeparator v = false ->
  (ru = EmptyString \/ exists r, ru = "/" +:+ r) ->
  (rv = EmptyString \/ exists r, rv = "/" +:+ r) ->
  u +:+ ru = v +:+ rv -> u = v.
Proof.
  revert v. induction u as [|c u IH]; intros v Hu Hv Hru Hrv E.
  - destruct v as [|d v]; [reflexivity |]. exfalso.
    simpl in Hv. apply orb_false_iff in Hv as [Hd _]. apply bool_decide_eq_false in Hd.
    destruct Hru as [->|[r ->]]; simpl in E; [discriminate |].
    injection E as E _. now subst d.
  - simpl in Hu. apply orb_false_iff in Hu as [Hc Hu]. apply bool_decide_eq_false in Hc.
    destruct v as [|d v].
    + exfalso. destruct Hrv as [->|[r ->]]; simpl in E; [discriminate |].
      injection E as E _. now subst c.
    + simpl in Hv. apply orb_false_iff in Hv as [_ Hv].
      simpl in E. injection E as -> E. f_equal. eauto.
Qed.

Lemma name_dir_not_root (d v : string) : isName v -> d +:+ "/" +:+ v <> "/".
Proof.
  intros (Hv & _) E. destruct d as [|x d]; simpl in E.
  - injection E as E. contradiction.
  - injection E as _ E. destruct d; discriminate.
Qed.

(** An entry lies in the install directories of two names only when the
    names are the same. *)
Lemma within_names (d u v k : string) :
  isName u -> isName v ->
  os.within (d +:+ "/" +:+ u) k = true -> os.within (d +:+ "/" +:+ v) k = true -> u = v.
Proof.
  intros Hu Hv Wu Wv.
  apply within_inv in Wu as (ru & -> & Hru); [| now apply name_dir_not_root].
  apply within_inv in Wv as (rv & E & Hrv); [| now apply name_dir_not_root].
  rewrite !append_assoc in E.
  apply append_inj_l, (append_inj_l "/") in E.
  destruct Hu as (_ & _ & _ & Hu), Hv as (_ & _ & _ & Hv).
  exact (name_split u v ru rv Hu Hv Hru Hrv E).
Qed.

Lemma HasSuffix_no_separator (v : string) :
  filepath.hasSeparator v = false -> gostrings.HasSuffix v "/." = false.
Proof.
  induction v as [|x v IH]; intros H; simpl.
  - reflexivity.
  - simpl in H. apply orb_false_iff in H as [Hx Hv]. apply bool_decide_eq_false in Hx.
    rewrite (IH Hv), orb_false_r. apply bool_decide_eq_false.
    intros [= -> _]. now apply Hx.
Qed.

Lemma endsWithDot_name (d v : string) :
  isName v -> os.endsWithDot (d +:+ "/" +:+ v) = false.
Proof.
  intros (Hne & Hdot & _ & Hsep). unfold os.endsWithDot.
  apply orb_false_iff. split.
  - apply bool_decide_eq_false. intros E. destruct d as [|x d]; simpl in E.
    + discriminate.
    + injection E as _ E. destruct d; discriminate.
  - induction d as [|x d IH]; simpl.
    + rewrite (HasSuffix_no_separator v Hsep), orb_false_r.
      apply bool_decide_eq_false. intros [= E]. contradiction.
    + simpl in IH. rewrite IH, orb_false_r. apply bool_decide_eq_false.
      intros [= _ E]. destruct d as [|y d]; simpl in E; [discriminate |].
      injection E as _ E. destruct d; discriminate.
Qed.

Lemma removeCmd_cases w a0 a1 s w' e :
  removeCmd w [a0; a1; s] = (w', e) ->
  w' = w
  \/ exists goroot,
       isDefault w (normalize s) = inl false
       /\ versionRoot w (normalize s) = inl goroot
       /\ w' = (os.RemoveAll w goroot).1.
Proof.
  unfold removeCmd.
  destruct (isDefault w (normalize s)) as [[|]|]; try (intros [= <- _]; now left).
  destruct (versionRoot w (normalize s)) as [goroot|]; [| intros [= <- _]; now left].
  destruct (os.RemoveAll w goroot) as [w'' [err|]] eqn:E; intros [= <- _];
    right; exists goroot; rewrite E; auto.
Qed.

(** C1, as amended. [removeCmd] ends in "can't remove default version" exactly
    when [isDefault] holds of the normalized version, and then nothing is
    deleted. When the normalized version is a version name other than [go],
    whatever [removeCmd] does leaves the entry at the pointer path as it was,
    and when a version name [u] is current it stays current and nothing at or
    below its install directory changes. *)
Theorem removeCmd_guard (w : World) :
  (forall Args w' x,
      removeCmd w Args = (w', RemoveDefault x) <->
      exists a0 a1 s, Args = [a0; a1; s] /\ x = normalize s
                      /\ isDefault w x = inl true /\ w' = w)
  /\ (forall a0 a1 s w' e,
        isName (normalize s) -> normalize s <> "go" ->
        removeCmd w [a0; a1; s] = (w', e) ->
        (forall link, versionRoot w "go" = inl link -> files w' !! link = files w !! link)
        /\ (forall u, isName u -> isDefault w u = inl true ->
              isDefault w' u = inl true
              /\ forall root k, versionRoot w u = inl root -> os.within root k = true ->
                                files w' !! k = files w !! k)).
Proof.
  split.
  - intros Args w' x. split.
    + destruct Args as [|a0 [|a1 [|s [|? ?]]]]; simpl; try discriminate.
      destruct (isDefault w (normalize s)) as [[|]|] eqn:D; try discriminate.
      * intros [= <- <-]. exists a0, a1, s. auto.
      * destruct (versionRoot w (normalize s)); [| discriminate].
        destruct (os.RemoveAll w s0) as [? [?|]]; discriminate.
    + intros (a0 & a1 & s & -> & -> & D & ->). simpl. now rewrite D.
  - intros a0 a1 s w' e Hv Hgo R.
    apply removeCmd_cases in R as [->|(goroot & D & Er & ->)].
    { split; [reflexivity |]. intros u _ Du. split; [exact Du | reflexivity]. }
    destruct (versionRoot_home _ _ _ Er) as [home Hh].
    rewrite (versionRoot_name _ _ _ Hh Hv) in Er. injection Er as <-.
    assert (Hlink : forall link, versionRoot w "go" = inl link ->
              files (os.RemoveAll w (sdkDir home +:+ "/" +:+ normalize s)).1 !! link
              = files w !! link).
    { intros link El. rewrite (versionRoot_name _ _ _ Hh isName_go) in El.
      injection El as <-. apply RemoveAll_outside.
      destruct (os.within _ _) eqn:W; [| reflexivity]. exfalso. apply Hgo.
      exact (within_names _ _ _ _ Hv isName_go W (within_refl _)). }
    split; [exact Hlink |].
    intros u Hu Du.
    pose proof Du as Du'. apply isDefault_true in Du' as (root & link & Eu & El & F).
    assert (Hout : forall k, os.within root k = true ->
              os.within (sdkDir home +:+ "/" +:+ normalize s) k = false).
    { intros k Wk. destruct (os.within (sdkDir home +:+ _) k) eqn:W; [| reflexivity].
      exfalso. rewrite (versionRoot_name _ _ _ Hh Hu) in Eu. injection Eu as <-.
      pose proof (within_names _ _ _ _ Hu Hv Wk W) as ->. congruence. }
    split.
    + apply isDefault_true. exists root, link.
      destruct (RemoveAll_frame w (sdkDir home +:+ "/" +:+ normalize s)) as [_ Hvars].
      split; [| split].
      * rewrite <- Eu. apply versionRoot_vars, Hvars.
      * rewrite <- El. apply versionRoot_vars, Hvars.
      * etrans; [exact (Hlink _ El) | exact F].
    + intros root' k Eu' Wk. assert (root' = root) as -> by congruence.
      apply RemoveAll_outside, Hout, Wk.
Qed.

(** C10. For a version name that is not current and whose install directory
    does not exist, [removeCmd] ends in "removed": [os.RemoveAll] returns no
    error and the file system stays as it was. *)
Theorem removeCmd_absent_directory (w : World) (a0 a1 s goroot : string) :
  isName (normalize s) ->
  isDefault w (normalize s) = inl false ->
  versionRoot w (normalize s) = inl goroot ->
  files w !! goroot = None ->
  os.RemoveAll w goroot = (w, None)
  /\ removeCmd w [a0; a1; s] = (w, Removed (normalize s)).
Proof.
  intros Hv D Er Habs.
  assert (os.RemoveAll w goroot = (w, None)) as HR.
  { destruct (versionRoot_home _ _ _ Er) as [home Hh].
    rewrite (versionRoot_name _ _ _ Hh Hv) in Er. injection Er as <-.
    apply RemoveAll_absent; [now apply endsWithDot_name | assumption]. }
  split; [exact HR |].
  unfold removeCmd. now rewrite D, Er, HR.
Qed.

(** ** Removing a version: concrete runs *)

Lemma isName_decide v : bool_decide (isName v) = true -> isName v.
Proof. apply bool_decide_eq_true. Qed.

(** What the specification says of every [remove] fails on these inputs.
    With the pointer on [go1.16], [remove go] and [remove] of the empty specifier
    (normalized to [go]) pass the guard and delete the pointer itself, and
    [remove go/..] passes the guard and deletes the install directory of the
    current version. *)
Lemma removeCmd_deletes_pointer :
  os.Readlink demo "/home/u/sdk/go" = inl "/home/u/sdk/go1.16"
  /\ isDefault demo "go" = inl false
  /\ (removeCmd demo ["getgo"; "remove"; "go"]).2 = Removed "go"
  /\ files (removeCmd demo ["getgo"; "remove"; "go"]).1 !! "/home/u/sdk/go" = None
  /\ (removeCmd demo ["getgo"; "remove"; EmptyString]).2 = Removed "go"
  /\ files (removeCmd demo ["getgo"; "remove"; EmptyString]).1 !! "/home/u/sdk/go" = None
  /\ isDefault demo "go1.16" = inl true
  /\ (removeCmd demo ["getgo"; "remove"; "go/.."]).2 = Removed "go/.."
  /\ files (removeCmd demo ["getgo"; "remove"; "go/.."]).1 !! "/home/u/sdk/go1.16" = None.
Proof. vm_compute. repeat split. Qed.

Lemma removeCmd_guard_witness :
  let w' := (removeCmd demo ["getgo"; "remove"; "1.15"]).1 in
  (forall link, versionRoot demo "go" = inl link -> files w' !! link = files demo !! link)
  /\ (forall u, isName u -> isDefault demo u = inl true ->
        isDefault w' u = inl true
        /\ forall root k, versionRoot demo u = inl root -> os.within root k = true ->
                          files w' !! k = files demo !! k).
Proof.
  intros w'.
  apply (proj2 (removeCmd_guard demo) "getgo" "remove" "1.15" w'
               (removeCmd demo ["getgo"; "remove"; "1.15"]).2).
  - apply isName_decide. vm_compute. reflexivity.
  - vm_compute. discriminate.
  - subst w'. now destruct (removeCmd demo ["getgo"; "remove"; "1.15"]).
Defined.

Lemma removeCmd_absent_directory_witness :
  os.RemoveAll demo "/home/u/sdk/go1.14" = (demo, None)
  /\ removeCmd demo ["getgo"; "remove"; "1.14"] = (demo, Removed "go1.14").
Proof.
  apply (removeCmd_absent_directory demo "getgo" "remove" "1.14" "/home/u/sdk/go1.14").
  - apply isName_decide. vm_compute. reflexivity.
  - vm_compute. reflexivity.
  - vm_compute. reflexivity.
  - vm_compute. reflexivity.
Defined.

Lemma setDefaultVersion_then_isDefault_witness :
  let w1 := (setDefaultVersion demo "go1.15").1 in
  let w2 := (setDefaultVersion w1 "go1.16").1 in
  isDefault w1 "go1.15" = inl true
  /\ isDefault w2 "go1.15" = inl false
  /\ isDefault w2 "go1.16" = inl true
  /\ (forall u u', isName u -> isName u' ->
        isDefault w2 u = inl true -> isDefault w2 u' = inl true -> u = u')
  /\ exists link target,
       versionRoot w2 "go" = inl link /\ versionRoot w2 "go1.16" = inl target
       /\ files w2 !! link = Some (Link target).
Proof.
  intros w1 w2.
  apply (setDefaultVersion_then_isDefault demo w1 w2 "go1.15" "go1.16").
  - apply isName_decide. vm_compute. reflexivity.
  - apply isName_decide. vm_compute. reflexivity.
  - discriminate.
  - vm_compute. reflexivity.
  - vm_compute. reflexivity.
Defined.

(** Names are needed: [go1.16] and [go1.16/.] are different specifiers with
    the same install directory, and both are current at once. *)
Example isDefault_same_directory :
  isDefault demo "go1.16" = inl true /\ isDefault demo "go1.16/." = inl true.
Proof. vm_compute. split; reflexivity. Qed.

(** ** The two steps of [setDefaultVersion] *)

(** The wording of the specification fails on these inputs. Where the
    pointer path is a directory
    that is not empty, the removal fails with an error other than "does not
    exist"; [setDefaultVersion] passes over it, goes on to the link and
    returns the error of the link. Where there is no home directory it fails
    before either step. *)
Lemma setDefaultVersion_passes_over_removal_errors :
  (os.Remove demoDirectory "/home/u/sdk/go").2
    = Some (PathError "remove" "/home/u/sdk/go" ENOTEMPTY)
  /\ os.IsNotExist (PathError "remove" "/home/u/sdk/go" ENOTEMPTY) = false
  /\ (setDefaultVersion demoDirectory "go1.16").2
     = Some (LinkError "symlink" "/home/u/sdk/go1.16" "/home/u/sdk/go" EEXIST)
  /\ (setCurrent_claimed demoDirectory "/home/u/sdk/go1.16" "/home/u/sdk/go").2
     = Some (PathError "remove" "/home/u/sdk/go" ENOTEMPTY)
  /\ (setDefaultVersion demoDirectory "go1.16").2
     <> (setCurrent_claimed demoDirectory "/home/u/sdk/go1.16" "/home/u/sdk/go").2
  /\ setDefaultVersion demoNoHome "go1.16"
     = (demoNoHome, Some (Errorf "failed to get home directory: %v" ErrHomeNotDefined)).
Proof. vm_compute. repeat split. discriminate. Qed.

(** C7, as amended. Without a home directory [setDefaultVersion] fails and
    touches nothing. Otherwise it is the link creation applied to the state
    the removal leaves, whatever the removal returned: it fails exactly when
    the link creation fails, with that error; a removal that fails changes
    nothing, one that succeeds has deleted the old pointer before the link is
    tried. *)
Theorem setDefaultVersion_two_steps (w : World) (version : string) :
  (forall err, os.UserHomeDir w = inr err ->
     setDefaultVersion w version
     = (w, Some (Errorf "failed to get home directory: %v" err)))
  /\ (forall goroot link,
        versionRoot w version = inl goroot -> versionRoot w "go" = inl link ->
        setDefaultVersion w version = os.Symlink (os.Remove w link).1 goroot link
        /\ (forall err, (os.Remove w link).2 = Some err -> (os.Remove w link).1 = w)
        /\ ((os.Remove w link).2 = None ->
            files (os.Remove w link).1 = delete link (files w))
        /\ (files w !! link = None ->
            (os.Remove w link).2 = Some (PathError "remove" link ENOENT))
        /\ (forall w' err, os.Symlink (os.Remove w link).1 goroot link = (w', Some err) ->
              w' = (os.Remove w link).1)).
Proof.
  split.
  - intros err H. unfold setDefaultVersion, versionRoot. now rewrite H.
  - intros goroot link E1 E2. unfold setDefaultVersion. rewrite E1, E2.
    split; [| split; [| split; [| split]]].
    + destruct (os.Remove w link) as [w1 r]. simpl.
      now destruct (os.Symlink w1 goroot link) as [w2 [err|]].
    + intros err. unfold os.Remove. repeat case_match; simpl; congruence.
    + unfold os.Remove. repeat case_match; simpl; congruence.
    + intros H. unfold os.Remove. now rewrite H.
    + intros w' err. apply Symlink_failed.
Qed.

Lemma setDefaultVersion_two_steps_witness :
  setDefaultVersion demoNoHome "go1.16"
    = (demoNoHome, Some (Errorf "failed to get home directory: %v" ErrHomeNotDefined))
  /\ setDefaultVersion demo "go1.15"
     = os.Symlink (os.Remove demo "/home/u/sdk/go").1 "/home/u/sdk/go1.15" "/home/u/sdk/go".
Proof.
  split.
  - apply (proj1 (setDefaultVersion_two_steps demoNoHome "go1.16")).
    vm_compute. reflexivity.
  - apply (proj2 (setDefaultVersion_two_steps demo "go1.15")
                 "/home/u/sdk/go1.15" "/home/u/sdk/go").
    + vm_compute. reflexivity.
    + vm_compute. reflexivity.
Defined.

(** ** Normalization in the two commands *)





(** ** Scanning a profile file *)

Lemma isLine_decide value : bool_decide (isLine value) = true -> isLine value.
Proof. apply bool_decide_eq_true. Qed.

Lemma dropCR_snoc (v : string) : bufio.dropCR (v +:+ String bufio.CR EmptyString) = v.
Proof.
  induction v as [|a v IH]; [reflexivity |].
  change (String a v +:+ String bufio.CR EmptyString)
    with (String a (v +:+ String bufio.CR EmptyString)).
  cbn [bufio.dropCR].
  destruct (v +:+ String bufio.CR EmptyString) eqn:E.
  - destruct v; discriminate.
  - now rewrite IH.
Qed.

Lemma dropCR_id (v : string) :
  gostrings.HasSuffix v (String bufio.CR EmptyString) = false -> bufio.dropCR v = v.
Proof.
  induction v as [|a v IH]; [reflexivity |]. intros H.
  cbn [gostrings.HasSuffix] in H. apply orb_false_iff in H as [Ha Hv].
  cbn [bufio.dropCR]. destruct v as [|b v].
  - apply bool_decide_eq_false in Ha.
    destruct (decide (a = bufio.CR)) as [->|]; [now elim Ha | reflexivity].
  - now rewrite (IH Hv).
Qed.

Lemma rawLines_LF_nonempty (a b : string) : bufio.rawLines (a +:+ String bufio.LF b) <> [].
Proof.
  destruct a as [|x a]; simpl.
  - destruct (decide (bufio.LF = bufio.LF)); [discriminate | congruence].
  - destruct (decide (x = bufio.LF)); [discriminate |].
    destruct (bufio.rawLines _); discriminate.
Qed.

Lemma rawLines_append_LF (a b : string) :
  bufio.rawLines (a +:+ String bufio.LF b)
  = bufio.rawLines (a +:+ String bufio.LF EmptyString) ++ bufio.rawLines b.
Proof.
  induction a as [|x a IH]; simpl.
  - destruct (decide (bufio.LF = bufio.LF)); [reflexivity | congruence].
  - destruct (decide (x = bufio.LF)); [now rewrite IH |].
    rewrite IH. pose proof (rawLines_LF_nonempty a EmptyString).
    destruct (bufio.rawLines (a +:+ String bufio.LF EmptyString)); [congruence | reflexivity].
Qed.

Lemma rawLines_one (q : string) :
  hasLF q = false -> bufio.rawLines (q +:+ String bufio.LF EmptyString) = [q].
Proof.
  induction q as [|x q IH]; intros H; simpl.
  - destruct (decide (bufio.LF = bufio.LF)); [reflexivity | congruence].
  - simpl in H. apply orb_false_iff in H as [Hx Hq]. apply bool_decide_eq_false in Hx.
    destruct (decide (x = bufio.LF)); [contradiction |]. now rewrite (IH Hq).
Qed.

Lemma rawLines_open (p : string) :
  hasLF p = false ->
  bufio.rawLines p = if decide (p = EmptyString) then [] else [p].
Proof.
  induction p as [|x p IH]; intros H; [reflexivity |].
  simpl in H. apply orb_false_iff in H as [Hx Hp]. apply bool_decide_eq_false in Hx.
  simpl. destruct (decide (x = bufio.LF)); [contradiction |].
  rewrite (IH Hp). now destruct (decide (p = EmptyString)) as [->|].
Qed.

(** A text is its complete lines followed by an open last line. *)
Lemma split_last_line (c : string) :
  exists body p,
    c = body +:+ p /\ hasLF p = false
    /\ (body = EmptyString \/ exists b, body = b +:+ String bufio.LF EmptyString).
Proof.
  induction c as [|x c (body & p & -> & Hp & Hb)].
  - exists EmptyString, EmptyString. auto.
  - destruct Hb as [->|[b ->]].
    + destruct (decide (x = bufio.LF)) as [->|Hx].
      * exists (String bufio.LF EmptyString), p. repeat split; auto.
        right. now exists EmptyString.
      * exists EmptyString, (String x p). repeat split; auto.
        simpl. rewrite Hp. now rewrite bool_decide_eq_false_2.
    + exists (String x b +:+ String bufio.LF EmptyString), p. repeat split; auto.
      right. now exists (String x b).
Qed.

Lemma rawLines_body (body p : string) :
  (body = EmptyString \/ exists b, body = b +:+ String bufio.LF EmptyString) ->
  bufio.rawLines (body +:+ p) = bufio.rawLines body ++ bufio.rawLines p.
Proof.
  intros [->|[b ->]]; [reflexivity |].
  rewrite append_assoc. apply rawLines_append_LF.
Qed.

Lemma rawLines_close (body q t : string) :
  (body = EmptyString \/ exists b, body = b +:+ String bufio.LF EmptyString) ->
  hasLF q = false ->
  bufio.rawLines (body +:+ q +:+ String bufio.LF t)
  = bufio.rawLines body ++ q :: bufio.rawLines t.
Proof.
  intros Hb Hq. rewrite rawLines_body by assumption.
  now rewrite rawLines_append_LF, rawLines_one.
Qed.

Lemma scanLines_app value l1 l2 :
  scanLines value (l1 ++ l2)
  = match scanLines value l1 with
    | (false, None) => scanLines value l2
    | r => r
    end.
Proof.
  induction l1 as [|raw l1 IH]; simpl; [reflexivity |].
  destruct (bufio.tooLong raw); [reflexivity |].
  destruct (decide (bufio.dropCR raw = value)); [reflexivity | exact IH].
Qed.

Lemma scanLines_results value l :
  scanLines value l = (false, None)
  \/ scanLines value l = (true, None)
  \/ scanLines value l = (false, Some ErrTooLong).
Proof.
  induction l as [|raw l IH]; simpl; [auto |].
  destruct (bufio.tooLong raw); [auto |].
  destruct (decide (bufio.dropCR raw = value)); auto.
Qed.

Lemma scanLines_absent value l :
  scanLines value l = (false, None) ->
  Forall (fun raw => bufio.dropCR raw <> value) l.
Proof.
  induction l as [|raw l IH]; simpl; [constructor |].
  destruct (bufio.tooLong raw); [discriminate |].
  destruct (decide (bufio.dropCR raw = value)); [discriminate |].
  intros H. constructor; auto.
Qed.

Lemma scanLines_found value l :
  scanLines value l = (true, None) -> 0 < occurrencesIn value l.
Proof.
  unfold occurrencesIn. induction l as [|raw l IH]; simpl; [discriminate |].
  destruct (bufio.tooLong raw); [discriminate |].
  destruct (decide (bufio.dropCR raw = value)) as [E|E].
  - intros _. rewrite bool_decide_eq_true_2 by assumption. simpl. lia.
  - intros H. specialize (IH H). destruct (bool_decide _); simpl; lia.
Qed.

Lemma occurrencesIn_absent value l :
  Forall (fun raw => bufio.dropCR raw <> value) l -> occurrencesIn value l = 0.
Proof.
  unfold occurrencesIn. induction 1 as [|raw l H _ IH]; simpl; [reflexivity |].
  now rewrite bool_decide_eq_false_2.
Qed.

Lemma occurrencesIn_app value l1 l2 :
  occurrencesIn value (l1 ++ l2) = occurrencesIn value l1 + occurrencesIn value l2.
Proof. unfold occurrencesIn. now rewrite List.filter_app, length_app. Qed.

(** ** Opening through links *)

Lemma follow_stops fs n name q :
  os.follow fs n name = inl q -> forall t, fs !! q <> Some (Link t).
Proof.
  revert name. induction n as [|n IH]; intros name; simpl.
  - destruct (fs !! name) as [[| |target]|] eqn:E; try discriminate;
      intros [= <-] t; congruence.
  - destruct (fs !! name) as [[| |target]|] eqn:E; try (intros [= <-] t; congruence).
    apply IH.
Qed.

Lemma follow_error fs n name e : os.follow fs n name = inr e -> e = ELOOP.
Proof.
  revert name. induction n as [|n IH]; intros name; simpl.
  - destruct (fs !! name) as [[| |target]|]; try discriminate. now intros [= <-].
  - destruct (fs !! name) as [[| |target]|]; try discriminate. apply IH.
Qed.

Lemma follow_insert fs q x n name :
  (forall t, fs !! q <> Some (Link t)) ->
  os.follow (<[q := Regular x]> fs) n name = os.follow fs n name.
Proof.
  intros Hq. revert name. induction n as [|n IH]; intros name; simpl.
  - destruct (decide (q = name)) as [->|Hne].
    + rewrite lookup_insert_eq. destruct (fs !! name) as [[| |t]|] eqn:E; try reflexivity.
      now elim (Hq t).
    + now rewrite lookup_insert_ne.
  - destruct (decide (q = name)) as [->|Hne].
    + rewrite lookup_insert_eq. destruct (fs !! name) as [[| |t]|] eqn:E; try reflexivity.
      now elim (Hq t).
    + rewrite lookup_insert_ne by assumption.
      destruct (fs !! name) as [[| |t]|]; try reflexivity. apply IH.
Qed.

(** What the scan of [checkStringExistsFile] reads, when the file opens. *)
Lemma checkStringExistsFile_absent w filename value :
  checkStringExistsFile w filename value = (false, None) ->
  exists q,
    os.follow (files w) os.maxSymlinks filename = inl q
    /\ (files w !! q = None
        \/ exists c, files w !! q = Some (Regular c)
                     /\ scanLines value (bufio.rawLines c) = (false, None)).
Proof.
  unfold checkStringExistsFile, os.OpenFile_RDONLY.
  destruct (os.follow (files w) os.maxSymlinks filename) as [q|e] eqn:F.
  - destruct (files w !! q) as [n|] eqn:E.
    + unfold os.ReadAll. rewrite E.
      destruct n as [|c|t]; try discriminate.
      intros H. exists q. split; [reflexivity |]. right. eauto.
    + intros _. exists q. auto.
  - rewrite (follow_error _ _ _ _ F). discriminate.
Qed.

Lemma checkStringExistsFile_found w filename value :
  checkStringExistsFile w filename value = (true, None) ->
  0 < occurrences w filename value.
Proof.
  unfold checkStringExistsFile, occurrences.
  destruct (os.OpenFile_RDONLY w filename) as [f|err].
  - destruct (os.ReadAll w f) as [c|err]; [apply scanLines_found | discriminate].
  - destruct (os.IsNotExist err); discriminate.
Qed.

Lemma hasLF_append (a b : string) : hasLF (a +:+ b) = hasLF a || hasLF b.
Proof.
  induction a as [|x a IH]; [reflexivity |].
  simpl. now rewrite IH, orb_assoc.
Qed.

(** The lines of a file after [lineEnding + value + lineEnding] is written at
    its end, when [value] was not among its lines: the complete lines as
    before, the closed last line, and [value]. *)
Lemma rawLines_appended (lineEnding c value : string) :
  isLineEnding lineEnding -> isLine value ->
  scanLines value (bufio.rawLines c) = (false, None) ->
  exists done last written,
    bufio.rawLines (c +:+ lineEnding +:+ value +:+ lineEnding) = done ++ [last; written]
    /\ scanLines value done = (false, None)
    /\ bufio.dropCR last <> value
    /\ bufio.dropCR written = value.
Proof.
  intros Hle (Hne & Hlf & Hcr) Hscan.
  destruct (split_last_line c) as (body & p & -> & Hp & Hb).
  rewrite rawLines_body in Hscan by assumption.
  rewrite scanLines_app in Hscan.
  assert (Hbody : scanLines value (bufio.rawLines body) = (false, None)).
  { destruct (scanLines_results value (bufio.rawLines body)) as [E|[E|E]];
      rewrite E in Hscan; [exact E | discriminate | discriminate]. }
  rewrite Hbody in Hscan.
  assert (Hp' : p <> EmptyString -> bufio.dropCR p <> value).
  { intros Hpne. rewrite rawLines_open in Hscan by assumption.
    destruct (decide (p = EmptyString)); [contradiction |].
    apply scanLines_absent in Hscan. now inversion Hscan. }
  assert (exists r, (r = EmptyString \/ r = String bufio.CR EmptyString)
                    /\ lineEnding = r +:+ String bufio.LF EmptyString) as (r & Hr & ->).
  { destruct Hle as [->| ->]; [exists EmptyString | exists (String bufio.CR EmptyString)]; auto. }
  assert (Hrlf : hasLF r = false) by (destruct Hr as [->| ->]; reflexivity).
  exists (bufio.rawLines body), (p +:+ r), (value +:+ r).
  split; [| split; [exact Hbody | split]].
  - replace ((body +:+ p) +:+ (r +:+ String bufio.LF EmptyString) +:+ value
             +:+ r +:+ String bufio.LF EmptyString)
      with (body +:+ (p +:+ r) +:+ String bufio.LF ((value +:+ r) +:+ String bufio.LF EmptyString))
      by (rewrite !append_assoc; reflexivity).
    rewrite rawLines_close; [| assumption | now rewrite hasLF_append, Hp, Hrlf].
    rewrite rawLines_one by (now rewrite hasLF_append, Hlf, Hrlf). reflexivity.
  - destruct Hr as [->| ->].
    + rewrite append_nil_r. destruct (decide (p = EmptyString)) as [->|Hpne]; [| auto].
      simpl. congruence.
    + rewrite dropCR_snoc. intros ->. apply (Hp' Hne). now apply dropCR_id.
  - destruct Hr as [->| ->].
    + rewrite append_nil_r. now apply dropCR_id.
    + apply dropCR_snoc.
Qed.

Section Append.

Variable lineEnding : string.
Hypothesis lineEnding_ok : isLineEnding lineEnding.


(** What a write of [appendToFile] leaves: the file the name opens holds
    its former content, in which the line was not found, followed by the
    line between two line endings. *)
Lemma appendToFile_written w filename value w1 :
  checkStringExistsFile w filename value = (false, None) ->
  appendToFile lineEnding w filename value = (w1, None) ->
  exists q c,
    os.follow (files w1) os.maxSymlinks filename = inl q
    /\ files w1 !! q = Some (Regular (c +:+ lineEnding +:+ value +:+ lineEnding))
    /\ scanLines value (bufio.rawLines c) = (false, None).
Proof.
  intros C. unfold appendToFile. rewrite C.
  apply checkStringExistsFile_absent in C as (q & F & Hq).
  pose proof (follow_stops _ _ _ _ F) as Hstop.
  unfold os.OpenFile_APPEND. rewrite F.
  destruct Hq as [E|(c & E & Hc)]; rewrite E.
  - destruct (files w !! filepath.Dir q) as [[| |]|]; try discriminate.
    case_bool_decide; [discriminate |].
    unfold os.WriteString. cbn [files os.setFiles]. rewrite lookup_insert_eq.
    intros [= <-]. exists q, EmptyString. cbn [files os.setFiles].
    rewrite !follow_insert, lookup_insert_eq; auto.
    intros t. rewrite lookup_insert_eq. discriminate.
  - unfold os.WriteString. rewrite E.
    intros [= <-]. exists q, c. cbn [files os.setFiles].
    rewrite follow_insert, lookup_insert_eq by assumption. auto.
Qed.

Lemma appended_once w1 filename value q c :
  isLine value ->
  os.follow (files w1) os.maxSymlinks filename = inl q ->
  files w1 !! q = Some (Regular (c +:+ lineEnding +:+ value +:+ lineEnding)) ->
  scanLines value (bufio.rawLines c) = (false, None) ->
  occurrences w1 filename value = 1
  /\ checkStringExistsFile w1 filename value <> (false, None).
Proof.
  intros Hv F E Hc.
  destruct (rawLines_appended lineEnding c value lineEnding_ok Hv Hc)
    as (done & last & written & Hl & Hdone & Hlast & Hwritten).
  unfold occurrences, checkStringExistsFile, os.OpenFile_RDONLY, os.ReadAll.
  rewrite F, E. cbv beta iota. rewrite E, Hl. split.
  - rewrite occurrencesIn_app, (occurrencesIn_absent _ _ (scanLines_absent _ _ Hdone)).
    unfold occurrencesIn. simpl.
    rewrite (bool_decide_eq_false_2 _ Hlast), (bool_decide_eq_true_2 _ Hwritten).
    reflexivity.
  - rewrite scanLines_app, Hdone. simpl.
    destruct (bufio.tooLong last); [discriminate |].
    destruct (decide (bufio.dropCR last = value)); [contradiction |].
    destruct (bufio.tooLong written); [discriminate |].
    destruct (decide (bufio.dropCR written = value)); [discriminate | contradiction].
Qed.

End Append.

(** ** Appending a profile line *)



(** What is written: the old text, a line ending, the line, a line ending. *)
Example appendToFile_text :
  files (appendToFile LF demoProfile "/home/u/.bash_profile" exportLine).1
    !! "/home/u/.bash_profile"
  = Some (Regular ("# profile" +:+ LF +:+ exportLine +:+ LF)).
Proof. vm_compute. reflexivity. Qed.

(** The condition on the line is needed: appended to a file that does not
    exist yet, the empty line is in the file twice. *)
Example appendToFile_empty_line :
  occurrences demoProfile "/home/u/.zshrc" EmptyString = 0
  /\ occurrences (appendToFile LF demoProfile "/home/u/.zshrc" EmptyString).1
       "/home/u/.zshrc" EmptyString = 2.
Proof. vm_compute. split; reflexivity. Qed.

(** ** The profile file of the shell *)

(** The wording of the specification fails on these inputs. Without a home
    directory an
    unrecognized shell gets the error of the home directory, not the one of
    the shell; and a [zsh] whose path holds the letters [bash] gets
    [.bash_profile]. *)
Lemma persistEnvVar_other_outcomes :
  isShell "/usr/bin/fish" "bash" = false
  /\ isShell "/usr/bin/fish" "zsh" = false
  /\ persistEnvVar linux LF "/usr/bin/fish" noRun demoNoHome "GOPATH" "/home/u/go"
     = (demoNoHome, Some ErrHomeNotDefined)
  /\ ErrHomeNotDefined <> ErrUnsupportedShell "/usr/bin/fish"
  /\ shellConfigFile "/home/bashir/bin/zsh" demo = inl "/home/u/.bash_profile".
Proof. vm_compute. repeat split. discriminate. Qed.

(** C8, as amended. On a host other than Windows: when the home directory
    cannot be determined, [persistEnvVar] fails with the error of the home
    directory and changes nothing, whatever the shell. With a home directory,
    a shell name that holds neither [bash] nor [zsh] makes it fail with the
    unsupported-shell error and change nothing; a name that holds [bash]
    selects [.bash_profile] in the home directory, whether or not it also
    holds [zsh]; a name that holds [zsh] and not [bash] selects [.zshrc]; the
    export line is appended to the selected file. *)
Theorem persistEnvVar_shell_profile (rt : runtime) (lineEnding currentShell : string)
    (run : World -> string -> list string -> World * option error)
    (w : World) (name value : string) :
  GOOS rt <> "windows" ->
  (forall err, getHomeDir w = inr err ->
     shellConfigFile currentShell w = inr err
     /\ persistEnvVar rt lineEnding currentShell run w name value = (w, Some err))
  /\ (os.Getenv w "HOME" = EmptyString ->
      persistEnvVar rt lineEnding currentShell run w name value
      = (w, Some ErrHomeNotDefined))
  /\ (forall home, getHomeDir w = inl home ->
        (isShell currentShell "bash" = false -> isShell currentShell "zsh" = false ->
           shellConfigFile currentShell w = inr (ErrUnsupportedShell currentShell)
           /\ persistEnvVar rt lineEnding currentShell run w name value
              = (w, Some (ErrUnsupportedShell currentShell)))
        /\ (forall rc,
              (isShell currentShell "bash" = true
               /\ rc = filepath.Join [home; ".bash_profile"])
              \/ (isShell currentShell "bash" = false /\ isShell currentShell "zsh" = true
                  /\ rc = filepath.Join [home; ".zshrc"]) ->
              shellConfigFile currentShell w = inl rc
              /\ persistEnvVar rt lineEnding currentShell run w name value
                 = match appendToFile lineEnding w rc
                           ("export " +:+ gostrings.ToUpper name +:+ "=" +:+ value) with
                   | (w1, Some err) => (w1, Some err)
                   | (w1, None) => os.Setenv w1 (gostrings.ToUpper name) value
                   end)).
Proof.
  intros Hos.
  assert (Hp : persistEnvVar rt lineEnding currentShell run w name value
               = persistInProfile lineEnding currentShell w name value).
  { unfold persistEnvVar. now rewrite bool_decide_eq_false_2. }
  assert (Hnone : forall err, getHomeDir w = inr err ->
            shellConfigFile currentShell w = inr err
            /\ persistEnvVar rt lineEnding currentShell run w name value = (w, Some err)).
  { intros err Hh.
    assert (shellConfigFile currentShell w = inr err) as Hc.
    { unfold shellConfigFile. now rewrite Hh. }
    split; [exact Hc |]. rewrite Hp. unfold persistInProfile. now rewrite Hc. }
  split; [exact Hnone |]. split.
  - intros Hhome. apply Hnone. unfold getHomeDir, os.UserHomeDir. now rewrite Hhome.
  - intros home Hh. split.
    + intros Hb Hz.
      assert (shellConfigFile currentShell w = inr (ErrUnsupportedShell currentShell)) as Hc.
      { unfold shellConfigFile. now rewrite Hh, Hb, Hz. }
      split; [exact Hc |]. rewrite Hp. unfold persistInProfile. now rewrite Hc.
    + intros rc Hrc.
      assert (shellConfigFile currentShell w = inl rc) as Hc.
      { unfold shellConfigFile. rewrite Hh.
        destruct Hrc as [[Hb ->]|(Hb & Hz & ->)]; [now rewrite Hb | now rewrite Hb, Hz]. }
      split; [exact Hc |]. rewrite Hp. unfold persistInProfile. now rewrite Hc.
Qed.

Lemma persistEnvVar_shell_profile_witness :
  (shellConfigFile "/usr/bin/fish" demo = inr (ErrUnsupportedShell "/usr/bin/fish")
   /\ persistEnvVar linux LF "/usr/bin/fish" noRun demo "GOPATH" "/home/u/go"
      = (demo, Some (ErrUnsupportedShell "/usr/bin/fish")))
  /\ shellConfigFile "/bin/zsh" demo = inl "/home/u/.zshrc"
  /\ persistEnvVar linux LF "/bin/bash" noRun demoNoHome "GOPATH" "/home/u/go"
     = (demoNoHome, Some ErrHomeNotDefined).
Proof.
  split; [| split].
  - apply (proj1 (proj2 (proj2 (persistEnvVar_shell_profile linux LF "/usr/bin/fish" noRun
                                  demo "GOPATH" "/home/u/go" ltac:(discriminate)))
                   "/home/u" eq_refl));
      vm_compute; reflexivity.
  - apply (proj2 (proj2 (proj2 (persistEnvVar_shell_profile linux LF "/bin/zsh" noRun demo
                                  "GOPATH" "/home/u/go" ltac:(discriminate)))
                   "/home/u" eq_refl)
                 "/home/u/.zshrc").
    right. vm_compute. repeat split.
  - apply (proj1 (proj2 (persistEnvVar_shell_profile linux LF "/bin/bash" noRun demoNoHome
                           "GOPATH" "/home/u/go" ltac:(discriminate)))).
    vm_compute. reflexivity.
Defined.

(** ** The filtered catalog: concrete runs *)

Lemma update_aliases_take_first_witness :
  let first := archive "go1.16.5" "linux" "amd64" "archive" "b1" in
  let rest := [archive "go1.15.13" "linux" "amd64" "archive" "3d"] in
  let res := Answer 200 (Some demoCatalog) in
  installSwitch linux ["getgo"; "up"] res = Value ("go1.16.5", EmptyString)
  /\ installSwitch linux ["getgo"; "latest"] res = Value ("go1.16.5", EmptyString)
  /\ installSwitch linux ["getgo"; "update"] res = Value ("go1.16.5", EmptyString)
  /\ exists releases before r after earlier later,
       res = Answer 200 (Some releases)
       /\ first :: rest = installable linux releases
       /\ releases = before ++ r :: after
       /\ installable linux before = []
       /\ Release.Stable r = true
       /\ Release.Versions r = earlier ++ first :: later
       /\ List.filter (isValidArchive linux) earlier = []
       /\ isValidArchive linux first = true.
Proof.
  intros first rest res.
  apply (update_aliases_take_first linux res "getgo" [] first rest).
  vm_compute. reflexivity.
Defined.

Lemma empty_catalog_index_out_of_range_witness :
  let res := Answer 200 (Some demoCatalogNoStable) in
  installSwitch linux ["getgo"; "latest"] res = IndexOutOfRange 0 0
  /\ installCmd linux goFound okInstall okRun noOut demo ["getgo"; "latest"] res res
     = (demo, InstallPanic 0 0)
  /\ bootstrap linux okInstall demo res = (demo, IndexOutOfRange 0 0).
Proof.
  intros res.
  apply (empty_catalog_index_out_of_range linux goFound okInstall okRun noOut
           demo "getgo" "latest" [] res res).
  - vm_compute. reflexivity.
  - right. left. reflexivity.
Defined.

(** Every end of [removeCmd], the report "removed" included, leaves the
    process with status 1. *)
Lemma removeCmd_status (w : World) (Args : list string) :
  removeStatus (removeCmd w Args).2 = 1%Z.
Proof. now destruct (removeCmd w Args).2. Qed.

(** * Further properties of the commands *)

(** ** The catalog request *)

(** X1. [listVersions] returns a sequence exactly when the request was
    answered with status 200 and a body that decodes, and the sequence is
    then the installable archives of the stable releases in document order;
    any other status is an error that carries the status, whatever the body. *)
Theorem listVersions_success_iff (rt : runtime) :
  (forall res versions,
      listVersions rt res = inl versions <->
      exists releases, res = Answer 200 (Some releases)
                       /\ versions = installable rt releases)
  /\ (forall code body, code <> 200%Z ->
        listVersions rt (Answer code body) = inr (ErrHTTPStatus code)).
Proof.
  split.
  - intros res versions. split; [apply listVersions_ok |].
    intros (releases & -> & ->). simpl. now rewrite filterReleases_spec.
  - intros code body Hc. simpl.
    destruct (Z.eqb_spec code 200); [contradiction | reflexivity].
Qed.

(** X2. An archive is in the result of [listVersions] exactly when it is an
    installable archive of a stable release of the document: nothing of an
    unstable release is returned and no installable archive of a stable one
    is dropped. *)
Theorem listVersions_members (rt : runtime) (releases : list Release.t) :
  exists versions,
    listVersions rt (Answer 200 (Some releases)) = inl versions
    /\ forall v, In v versions <->
                 exists r, In r releases /\ Release.Stable r = true
                           /\ In v (Release.Versions r) /\ isValidArchive rt v = true.
Proof.
  exists (installable rt releases). split.
  - simpl. now rewrite filterReleases_spec.
  - intros v. unfold installable. rewrite in_flat_map. split.
    + intros (r & Hr & Hv). exists r. destruct (Release.Stable r); [| contradiction].
      apply filter_In in Hv as [Hv Hvalid]. auto.
    + intros (r & Hr & Hst & Hv & Hvalid). exists r. split; [assumption |].
      rewrite Hst. apply filter_In. auto.
Qed.

(** ** The switch of [installCmd] *)

(** X3. For a specifier that is not one of the update aliases the switch
    never consults the catalog: whatever the answer of the endpoint, the
    version is the lower-cased specifier, so no request is needed and no
    failure is possible at this point. *)
Theorem installSwitch_offline (rt : runtime) (a0 s : string) (more : list string)
    (res res' : Response) :
  isUpdate (gostrings.ToLower s) = false ->
  installSwitch rt (a0 :: s :: more) res = installSwitch rt (a0 :: s :: more) res'
  /\ exists CL, installSwitch rt (a0 :: s :: more) res = Value (gostrings.ToLower s, CL).
Proof.
  intros H. unfold installSwitch.
  assert ((if length (a0 :: s :: more) =? 2
           then (a0 :: s :: more) ++ ["latest"] else a0 :: s :: more) !! 1
          = Some s) as -> by (destruct more; reflexivity).
  rewrite H. split; [reflexivity |].
  destruct (isTip (gostrings.ToLower s)); eauto.
Qed.

Lemma installSwitch_offline_witness :
  installSwitch linux ["getgo"; "1.15"] GetFailed
  = installSwitch linux ["getgo"; "1.15"] (Answer 200 (Some demoCatalog))
  /\ exists CL, installSwitch linux ["getgo"; "1.15"] GetFailed = Value ("1.15", CL).
Proof.
  apply (installSwitch_offline linux "getgo" "1.15" [] GetFailed
           (Answer 200 (Some demoCatalog))).
  vm_compute. reflexivity.
Defined.

(** X4. A changelist is passed on only for [tip] and [gotip]: it is the
    second argument when there are exactly two, and it is the word [latest],
    appended by [installCmd] itself, when the specifier is the only
    argument. *)
Theorem installSwitch_changelist (rt : runtime) (Args : list string) (res : Response) :
  (forall v CL, installSwitch rt Args res = Value (v, CL) -> CL <> EmptyString ->
     isTip v = true
     /\ ((length Args = 2 /\ CL = "latest") \/ (length Args = 3 /\ Args !! 2 = Some CL)))
  /\ (forall a0 s, Args = [a0; s] -> isTip (gostrings.ToLower s) = true ->
        installSwitch rt Args res = Value (gostrings.ToLower s, "latest")).
Proof.
  split.
  - intros v CL. unfold installSwitch.
    destruct Args as [|a [|b [|c [|d l]]]]; simpl; try discriminate.
    + destruct (isUpdate (gostrings.ToLower b)).
      * destruct (listVersions rt res) as [[|x xs]|]; simpl; try discriminate.
        intros [= <- <-]. congruence.
      * destruct (isTip (gostrings.ToLower b)) eqn:T; intros [= <- <-]; [auto | congruence].
    + destruct (isUpdate (gostrings.ToLower b)).
      * destruct (listVersions rt res) as [[|x xs]|]; simpl; try discriminate.
        intros [= <- <-]. congruence.
      * destruct (isTip (gostrings.ToLower b)) eqn:T; intros [= <- <-]; [auto | congruence].
    + destruct (isUpdate (gostrings.ToLower b)).
      * destruct (listVersions rt res) as [[|x xs]|]; simpl; try discriminate.
        intros [= <- <-]. congruence.
      * destruct (isTip (gostrings.ToLower b)) eqn:T; intros [= <- <-]; congruence.
  - intros a0 s -> T. unfold installSwitch. simpl. rewrite T.
    assert (isUpdate (gostrings.ToLower s) = false) as ->; [| reflexivity].
    unfold isTip in T. apply orb_true_iff in T as [T|T];
      apply bool_decide_eq_true in T; now rewrite T.
Qed.

Lemma installSwitch_changelist_witness :
  (isTip "tip" = true
   /\ ((length ["getgo"; "tip"; "23102"] = 2 /\ "23102" = "latest")
       \/ (length ["getgo"; "tip"; "23102"] = 3
           /\ ["getgo"; "tip"; "23102"] !! 2 = Some "23102")))
  /\ installSwitch linux ["getgo"; "Tip"] GetFailed = Value ("tip", "latest").
Proof.
  split.
  - apply (proj1 (installSwitch_changelist linux ["getgo"; "tip"; "23102"] GetFailed)
                 "tip" "23102"); [vm_compute; reflexivity | discriminate].
  - apply (proj2 (installSwitch_changelist linux ["getgo"; "Tip"] GetFailed) "getgo" "Tip");
      [reflexivity | vm_compute; reflexivity].
Defined.

(** ** [installCmd], [statusCmd] and [main] *)

Section CommandProperties.

Variable rt : runtime.
Variable findGo : World -> string.
Variable Install : World -> string -> string -> World * option error.
Variable run : World -> string -> list string -> World * option error.
Variable runOut : World -> string -> list string -> string + error.

(** X5. When [installCmd] reports success, the version it names starts with
    [go] and is the current one in the state it leaves; the setup hint is
    printed exactly when no [go] binary was found at the start. *)
Theorem installCmd_installed_is_default (w w' : World) (Args : list string)
    (res res' : Response) (version : string) (needSetup : bool) :
  installCmd rt findGo Install run runOut w Args res res'
  = (w', Installed version needSetup) ->
  isDefault w' version = inl true
  /\ gostrings.HasPrefix version "go" = true
  /\ (needSetup = true <-> findGo w = EmptyString).
Proof.
  unfold installCmd.
  destruct (installSwitch rt Args res) as [[s CL]| |]; [| discriminate | discriminate].
  destruct (bool_decide_reflect (findGo w = EmptyString)) as [Hgo|Hgo].
  - destruct (bootstrap rt Install w res') as [w1 [[gobin v]| |]]; try discriminate.
    destruct (run w1 gobin _) as [w2 [|]]; [discriminate |].
    destruct (gobinPath runOut w2 gobin) as [bin|]; [| discriminate].
    intros H. repeat case_match; simplify_eq;
      (split; [eapply isDefault_after; eassumption |]);
      (split; [apply normalize_prefixed | tauto]).
  - destruct (run w (findGo w) _) as [w2 [|]]; [discriminate |].
    destruct (gobinPath runOut w2 (findGo w)) as [bin|]; [| discriminate].
    intros H. repeat case_match; simplify_eq;
      (split; [eapply isDefault_after; eassumption |]);
      (split; [apply normalize_prefixed | split; [discriminate | contradiction]]).
Qed.

(** X6. With a [go] binary on the search path [installCmd] does not
    bootstrap: the answer to a second catalog request and the installer
    package play no part in what it does. *)
Theorem installCmd_no_bootstrap (w : World) (Args : list string) (res res' res'' : Response)
    (Install' : World -> string -> string -> World * option error) :
  findGo w <> EmptyString ->
  installCmd rt findGo Install run runOut w Args res res'
  = installCmd rt findGo Install' run runOut w Args res res''.
Proof.
  intros Hgo. unfold installCmd.
  destruct (installSwitch rt Args res) as [[s CL]| |]; try reflexivity.
  now rewrite (bool_decide_eq_false_2 _ Hgo).
Qed.

(** X7. When [statusCmd] finds no [go] binary and ends with the setup hint,
    it has installed the first entry of the filtered catalog with the
    installer package, under the install directory of that version, and that
    version is the current one in the state it leaves. *)
Theorem statusCmd_bootstraps_latest (w w' : World) (res : Response) (version : string) :
  statusCmd rt findGo Install runOut w res = (w', StatusBootstrapped version) ->
  findGo w = EmptyString
  /\ (exists first rest goroot w1,
        listVersions rt res = inl (first :: rest)
        /\ version = Version.Version first
        /\ versionRoot w version = inl goroot
        /\ Install w goroot version = (w1, None)
        /\ setDefaultVersion w1 version = (w', None))
  /\ isDefault w' version = inl true.
Proof.
  unfold statusCmd.
  destruct (bool_decide_reflect (findGo w = EmptyString)) as [Hgo|Hgo].
  - unfold bootstrap.
    destruct (listVersions rt res) as [[|first rest]|] eqn:L; simpl; try discriminate.
    destruct (versionRoot w (Version.Version first)) as [goroot|] eqn:R; [| discriminate].
    destruct (Install w goroot (Version.Version first)) as [w1 [|]] eqn:I; [discriminate |].
    destruct (setDefaultVersion w1 (Version.Version first)) as [w2 [|]] eqn:S;
      [discriminate |].
    intros [= <- <-]. split; [assumption |]. split.
    + exists first, rest, goroot, w1. auto.
    + eapply isDefault_after; eassumption.
  - destruct (runOut w (findGo w) ["version"]); [| discriminate].
    destruct (runOut w (findGo w) ["env"; "GOROOT"]); discriminate.
Qed.


End CommandProperties.

Lemma installCmd_installed_is_default_witness :
  let w' := (installCmd linux goFound okInstall okRun noOut demo ["getgo"; "1.15"]
               GetFailed GetFailed).1 in
  isDefault w' "go1.15" = inl true
  /\ gostrings.HasPrefix "go1.15" "go" = true
  /\ (false = true <-> goFound demo = EmptyString).
Proof.
  intros w'.
  apply (installCmd_installed_is_default linux goFound okInstall okRun noOut demo w'
           ["getgo"; "1.15"] GetFailed GetFailed "go1.15" false).
  vm_compute. reflexivity.
Defined.

Lemma installCmd_no_bootstrap_witness :
  installCmd linux goFound okInstall okRun noOut demo ["getgo"; "latest"]
    (Answer 200 (Some demoCatalog)) GetFailed
  = installCmd linux goFound (fun w _ _ => (w, Some ErrNet)) okRun noOut demo
      ["getgo"; "latest"] (Answer 200 (Some demoCatalog)) (Answer 500 None).
Proof.
  apply (installCmd_no_bootstrap linux goFound okInstall okRun noOut demo).
  vm_compute. discriminate.
Defined.

Lemma statusCmd_bootstraps_latest_witness :
  let res := Answer 200 (Some demoCatalog) in
  let w' := (statusCmd linux noGo okInstall noOut demo res).1 in
  noGo demo = EmptyString
  /\ (exists first rest goroot w1,
        listVersions linux res = inl (first :: rest)
        /\ "go1.16.5" = Version.Version first
        /\ versionRoot demo "go1.16.5" = inl goroot
        /\ okInstall demo goroot "go1.16.5" = (w1, None)
        /\ setDefaultVersion w1 "go1.16.5" = (w', None))
  /\ isDefault w' "go1.16.5" = inl true.
Proof.
  intros res w'.
  apply (statusCmd_bootstraps_latest linux noGo okInstall noOut demo w' res "go1.16.5").
  vm_compute. reflexivity.
Defined.


Section MainProperties.

Variable rt : runtime.
Variable findGo : World -> string.
Variable Install : World -> string -> string -> World * option error.
Variable run : World -> string -> list string -> World * option error.
Variable runOut : World -> string -> list string -> string + error.
Variable Glob : World -> string -> list string + error.
Variable lineEnding : string.
Variable currentShell : string.
Variable pathVar : string.
Variable envSeparator : ascii.
Variable persistEnvChangesForSession : World -> option error.

Lemma installCmd_panic_index w Args res res' w' i n a0 arg more :
  Args = a0 :: arg :: more ->
  installCmd rt findGo Install run runOut w Args res res' = (w', InstallPanic i n) -> i = 0.
Proof.
  intros ->. unfold installCmd, installSwitch.
  assert ((if length (a0 :: arg :: more) =? 2
           then (a0 :: arg :: more) ++ ["latest"] else a0 :: arg :: more) !! 1
          = Some arg) as -> by (destruct more; reflexivity).
  unfold bootstrap. intros H.
  repeat case_match; simplify_eq; reflexivity.
Qed.

(** X9. [main] runs [statusCmd] when there is no argument; a first argument
    that starts with a dash ends in the usage text with nothing done; and
    [installCmd] is reached only with a first argument that is neither a
    command word nor starts with a dash, so its [os.Args[1]] is always in
    range. *)
Theorem main_dispatch (stdin : scanned) (w : World) (Args : list string)
    (res res' : Response) :
  let main' := main rt findGo Install run runOut Glob lineEnding currentShell pathVar
                 envSeparator persistEnvChangesForSession stdin w Args res res' in
  (forall a0, Args = [a0] ->
     main' = ((statusCmd rt findGo Install runOut w res).1,
              MainStatus (statusCmd rt findGo Install runOut w res).2))
  /\ (forall a0 arg more, Args = a0 :: arg :: more ->
        gostrings.HasPrefix arg "-" = true -> main' = (w, MainUsage))
  /\ (forall w' e, main' = (w', MainInstall e) ->
        exists a0 arg more,
          Args = a0 :: arg :: more /\ ~ isCommandWord arg
          /\ gostrings.HasPrefix arg "-" = false
          /\ installCmd rt findGo Install run runOut w Args res res' = (w', e)
          /\ forall n, e <> InstallPanic 1 n).
Proof.
  intros main'. subst main'. unfold main. split; [| split].
  - intros a0 ->. simpl. now destruct (statusCmd rt findGo Install runOut w res).
  - intros a0 arg more -> Hdash.
    assert ((if length (a0 :: arg :: more) =? 1
             then (a0 :: arg :: more) ++ ["status"] else a0 :: arg :: more)
            = a0 :: arg :: more) as -> by reflexivity.
    simpl. repeat case_bool_decide; subst; try discriminate. now rewrite Hdash.
  - intros w' e.
    destruct Args as [|a0 [|arg more]].
    + simpl. discriminate.
    + simpl. destruct (statusCmd rt findGo Install runOut w res). discriminate.
    + assert ((if length (a0 :: arg :: more) =? 1
               then (a0 :: arg :: more) ++ ["status"] else a0 :: arg :: more)
              = a0 :: arg :: more) as -> by reflexivity.
      change ((a0 :: arg :: more) !! 1) with (Some arg). cbv beta iota.
      destruct (bool_decide_reflect (arg = "status"));
        [destruct (statusCmd rt findGo Install runOut w res); discriminate |].
      destruct (bool_decide_reflect (arg = "list")); [discriminate |].
      destruct (bool_decide_reflect (arg = "remove"));
        [destruct (removeCmd w (a0 :: arg :: more)); discriminate |].
      destruct (bool_decide_reflect (arg = "setup")).
      { destruct (setupCmd _ _ _ _ _ _ _ _ _ _); discriminate. }
      destruct (gostrings.HasPrefix arg "-") eqn:Hdash; [discriminate |].
      destruct (installCmd rt findGo Install run runOut w (a0 :: arg :: more) res res')
        as [w1 e1] eqn:I.
      intros [= ? ?]. subst. exists a0, arg, more.
      split; [reflexivity |]. split; [unfold isCommandWord; tauto |].
      split; [exact Hdash |]. split; [reflexivity |].
      intros len ->. now apply installCmd_panic_index with (a0 := a0) (arg := arg)
                           (more := more) in I.
Qed.

End MainProperties.

Lemma main_dispatch_witness :
  main linux goFound okInstall okRun noOut (fun _ _ => inl []) LF "/bin/bash" "$PATH"
    ":"%char (fun _ => None) (ScanEnd None) demo ["getgo"; "--help"] GetFailed GetFailed
  = (demo, MainUsage)
  /\ exists a0 arg more,
       ["getgo"; "1.15"] = a0 :: arg :: more /\ ~ isCommandWord arg
       /\ gostrings.HasPrefix arg "-" = false
       /\ installCmd linux goFound okInstall okRun noOut demo ["getgo"; "1.15"]
            GetFailed GetFailed
          = ((setDefaultVersion demo "go1.15").1, Installed "go1.15" false)
       /\ forall n, Installed "go1.15" false <> InstallPanic 1 n.
Proof.
  split.
  - apply (proj1 (proj2 (main_dispatch linux goFound okInstall okRun noOut
                           (fun _ _ => inl []) LF "/bin/bash" "$PATH" ":"%char
                           (fun _ => None) (ScanEnd None) demo ["getgo"; "--help"]
                           GetFailed GetFailed)) "getgo" "--help" []);
      reflexivity.
  - apply (proj2 (proj2 (main_dispatch linux goFound okInstall okRun noOut
                           (fun _ _ => inl []) LF "/bin/bash" "$PATH" ":"%char
                           (fun _ => None) (ScanEnd None) demo ["getgo"; "1.15"]
                           GetFailed GetFailed))).
    vm_compute. reflexivity.
Defined.

(** ** More on the current pointer *)

Lemma Symlink_any_target w old old' new w' :
  os.Symlink w old new = (w', None) ->
  os.Symlink w old' new
  = (os.setFiles w (<[new := Link old']> (files w)), None).
Proof.
  unfold os.Symlink. repeat case_match; try discriminate. reflexivity.
Qed.

(** X10. Whether [setDefaultVersion] succeeds does not depend on the version:
    where it succeeds for one version it succeeds for every string, installed
    or not, and leaves the pointer as a link to the install directory that
    string names. *)
Theorem setDefaultVersion_any_version (w : World) (version version' : string) :
  (setDefaultVersion w version).2 = None ->
  exists w' goroot link,
    setDefaultVersion w version' = (w', None)
    /\ versionRoot w version' = inl goroot
    /\ versionRoot w "go" = inl link
    /\ files w' !! link = Some (Link goroot)
    /\ isDefault w' version' = inl true.
Proof.
  intros H.
  destruct (setDefaultVersion w version) as [w1 r] eqn:S. simpl in H. subst r.
  pose proof S as S'. unfold setDefaultVersion in S'.
  destruct (versionRoot w version) as [goroot|] eqn:E1; [| discriminate].
  destruct (versionRoot w "go") as [link|] eqn:E2; [| discriminate].
  destruct (versionRoot_home _ _ _ E1) as [home Hh].
  assert (E1' : versionRoot w version' = inl (filepath.Join [home; "sdk"; version'])).
  { unfold versionRoot. now rewrite Hh. }
  destruct (os.Remove w link) as [w0 r0] eqn:R.
  destruct (os.Symlink w0 goroot link) as [w2 [err|]] eqn:L; [discriminate |].
  pose proof (Symlink_any_target _ _ (filepath.Join [home; "sdk"; version']) _ _ L) as L'.
  assert (S2 : setDefaultVersion w version'
               = (os.setFiles w0 (<[link := Link (filepath.Join [home; "sdk"; version'])]>
                                    (files w0)), None)).
  { unfold setDefaultVersion. now rewrite E1', E2, R, L'. }
  eexists _, _, link. split; [exact S2 |]. split; [exact E1' |]. split; [reflexivity |].
  split; [apply lookup_insert_eq | eapply isDefault_after; exact S2].
Qed.

Lemma setDefaultVersion_any_version_witness :
  exists w' goroot link,
    setDefaultVersion demo "go9.99" = (w', None)
    /\ versionRoot demo "go9.99" = inl goroot
    /\ versionRoot demo "go" = inl link
    /\ files w' !! link = Some (Link goroot)
    /\ isDefault w' "go9.99" = inl true.
Proof.
  apply (setDefaultVersion_any_version demo "go1.15" "go9.99").
  vm_compute. reflexivity.
Defined.

Lemma Remove_other w name k :
  k <> name -> files (os.Remove w name).1 !! k = files w !! k.
Proof.
  intros Hk. destruct (Remove_files w name) as [->| ->]; [reflexivity |].
  now apply lookup_delete_ne.
Qed.

Lemma Symlink_other w old new k :
  k <> new -> files (os.Symlink w old new).1 !! k = files w !! k.
Proof.
  intros Hk. unfold os.Symlink. repeat case_match; try reflexivity.
  simpl. now apply lookup_insert_ne.
Qed.

Lemma Symlink_frame w old new :
  locked (os.Symlink w old new).1 = locked w /\ vars (os.Symlink w old new).1 = vars w.
Proof. unfold os.Symlink. repeat case_match; auto. Qed.

(** X11. Where the pointer path is reached without passing through a link or
    a file, [setDefaultVersion] touches the pointer path and nothing else:
    whether it succeeds or fails, every other entry of the file system, the
    install directories among them, and the environment are as before. *)
Theorem setDefaultVersion_frame (w : World) (version link : string) :
  versionRoot w "go" = inl link ->
  plainPath w link ->
  vars (setDefaultVersion w version).1 = vars w
  /\ locked (setDefaultVersion w version).1 = locked w
  /\ (forall k, k <> link ->
        files (setDefaultVersion w version).1 !! k = files w !! k).
Proof.
  intros E2 _. unfold setDefaultVersion. rewrite E2.
  destruct (versionRoot w version) as [goroot|] eqn:E1.
  - assert (setDefaultVersion_eq :
      (let '(w1, _) := os.Remove w link in
       match os.Symlink w1 goroot link with
       | (w2, Some err) => (w2, Some err)
       | (w2, None) => (w2, None)
       end).1 = (os.Symlink (os.Remove w link).1 goroot link).1).
    { destruct (os.Remove w link) as [w1 r]. simpl.
      now destruct (os.Symlink w1 goroot link) as [w2 [|]]. }
    rewrite setDefaultVersion_eq.
    destruct (Symlink_frame (os.Remove w link).1 goroot link) as [Hl Hv].
    destruct (Remove_frame w link) as [Hl' Hv'].
    split; [congruence |]. split; [congruence |].
    intros k Hk. now rewrite Symlink_other, Remove_other.
  - simpl. repeat split; reflexivity.
Qed.

Lemma setDefaultVersion_frame_witness :
  vars (setDefaultVersion demo "go1.15").1 = vars demo
  /\ locked (setDefaultVersion demo "go1.15").1 = locked demo
  /\ (forall k, k <> "/home/u/sdk/go" ->
        files (setDefaultVersion demo "go1.15").1 !! k = files demo !! k).
Proof.
  apply (setDefaultVersion_frame demo "go1.15" "/home/u/sdk/go").
  - vm_compute. reflexivity.
  - apply (bool_decide_unpack _). vm_compute. exact I.
Defined.

(** ** More on removing a version *)

(** X12. Where the install directory of the normalized version is reached
    without passing through a link or a file, [removeCmd] changes the file
    system only inside that directory: entries that are not at or below it
    are as before, however the command ends, and the environment is not
    changed. *)
Theorem removeCmd_frame (w : World) (a0 a1 s goroot : string) :
  versionRoot w (normalize s) = inl goroot ->
  plainPath w goroot ->
  vars (removeCmd w [a0; a1; s]).1 = vars w
  /\ locked (removeCmd w [a0; a1; s]).1 = locked w
  /\ (forall k, os.within goroot k = false ->
        files (removeCmd w [a0; a1; s]).1 !! k = files w !! k).
Proof.
  intros Er _.
  destruct (removeCmd w [a0; a1; s]) as [w' e] eqn:R. cbn [fst].
  apply removeCmd_cases in R as [->|(goroot' & D & Er' & ->)].
  - repeat split; reflexivity.
  - assert (goroot' = goroot) as -> by congruence.
    destruct (RemoveAll_frame w goroot) as [Hl Hv].
    split; [exact Hv |]. split; [exact Hl |].
    intros k Hk. now apply RemoveAll_outside.
Qed.

Lemma removeCmd_frame_witness :
  vars (removeCmd demo ["getgo"; "remove"; "1.15"]).1 = vars demo
  /\ locked (removeCmd demo ["getgo"; "remove"; "1.15"]).1 = locked demo
  /\ (forall k, os.within "/home/u/sdk/go1.15" k = false ->
        files (removeCmd demo ["getgo"; "remove"; "1.15"]).1 !! k = files demo !! k).
Proof.
  apply (removeCmd_frame demo "getgo" "remove" "1.15" "/home/u/sdk/go1.15").
  - vm_compute. reflexivity.
  - apply (bool_decide_unpack _). vm_compute. exact I.
Defined.

Lemma cleanElems_nonempty rooted out elems :
  Forall (fun e => e <> EmptyString) out ->
  Forall (fun e => e <> EmptyString) (filepath.cleanElems rooted out elems).
Proof.
  revert out. induction elems as [|e elems IH]; intros out Hout; simpl; [assumption |].
  repeat case_decide; try (apply IH; assumption).
  - destruct out as [|top below].
    + destruct rooted; apply IH; [constructor | repeat constructor; discriminate].
    + case_decide; apply IH.
      * constructor; [discriminate | assumption].
      * now inversion Hout.
  - apply IH. now constructor.
Qed.

Lemma Clean_nonempty path : filepath.Clean path <> EmptyString.
Proof.
  unfold filepath.Clean. case_decide; [discriminate |].
  destruct (filepath.IsAbs path); [discriminate |].
  pose proof (cleanElems_nonempty false [] (gostrings.Split path filepath.Separator)
                (Forall_nil_2 _)) as Hall.
  apply Forall_rev in Hall.
  destruct (rev _) as [|e [|e' t]]; [discriminate | |].
  - simpl. now inversion Hall.
  - change (gostrings.Join (e :: e' :: t) "/")
      with (e +:+ "/" +:+ gostrings.Join (e' :: t) "/").
    destruct e; discriminate.
Qed.

Lemma versionRoot_nonempty w version root :
  versionRoot w version = inl root -> root <> EmptyString.
Proof.
  unfold versionRoot. destruct (os.UserHomeDir w) as [home|] eqn:Hh; [| discriminate].
  pose proof (UserHomeDir_ok _ _ Hh). intros [= <-].
  unfold filepath.Join. case_decide; [contradiction |]. apply Clean_nonempty.
Qed.

Lemma RemoveAll_done w path w' :
  path <> EmptyString ->
  os.RemoveAll w path = (w', None) ->
  files w' !! path = None
  /\ (files w !! path <> None ->
      forall k, os.within path k = true -> files w' !! k = None).
Proof.
  intros Hne. unfold os.RemoveAll.
  rewrite (bool_decide_eq_false_2 _ Hne).
  destruct (os.endsWithDot path); [discriminate |].
  destruct (files w !! path) as [n|] eqn:E.
  - case_bool_decide as Hall; [| discriminate]. intros [= <-]. simpl.
    assert (Hgone : forall k, os.within path k = true ->
              filter (fun kv : string * node =>
                        ~ (os.within path kv.1 = true /\ os.removable w kv.1 = true))
                     (files w) !! k = None).
    { intros k Hk. destruct (filter _ (files w) !! k) as [x|] eqn:F; [| reflexivity].
      specialize (Hall k x F). simpl in Hall. congruence. }
    split; [apply Hgone, within_refl | intros _; exact Hgone].
  - intros [= <-]. split; [assumption | congruence].
Qed.

(** X13. When [removeCmd] reports "removed", the version was not the current
    one and its install directory is gone; if the directory existed,
    everything below it is gone as well. *)
Theorem removeCmd_removed_gone (w w' : World) (a0 a1 s version : string) :
  removeCmd w [a0; a1; s] = (w', Removed version) ->
  version = normalize s
  /\ isDefault w version = inl false
  /\ exists goroot,
       versionRoot w version = inl goroot
       /\ files w' !! goroot = None
       /\ (files w !! goroot <> None ->
           forall k, os.within goroot k = true -> files w' !! k = None).
Proof.
  unfold removeCmd.
  destruct (isDefault w (normalize s)) as [[|]|] eqn:D; try discriminate.
  destruct (versionRoot w (normalize s)) as [goroot|] eqn:Er; [| discriminate].
  destruct (os.RemoveAll w goroot) as [w1 [err|]] eqn:R; [discriminate |].
  intros [= <- <-]. split; [reflexivity |]. split; [exact D |].
  exists goroot. split; [exact Er |].
  apply RemoveAll_done; [eapply versionRoot_nonempty; eassumption | exact R].
Qed.

Lemma removeCmd_removed_gone_witness :
  let w' := (removeCmd demo ["getgo"; "remove"; "1.15"]).1 in
  "go1.15" = normalize "1.15"
  /\ isDefault demo "go1.15" = inl false
  /\ exists goroot,
       versionRoot demo "go1.15" = inl goroot
       /\ files w' !! goroot = None
       /\ (files demo !! goroot <> None ->
           forall k, os.within goroot k = true -> files w' !! k = None).
Proof.
  intros w'.
  apply (removeCmd_removed_gone demo w' "getgo" "remove" "1.15" "go1.15").
  vm_compute. reflexivity.
Defined.

(** X14. When [removeCmd] ends in [log.Fatal(err)] nothing has been deleted,
    whatever version was to be removed: both calls come before
    [os.RemoveAll]. It ends so when the home directory cannot be determined,
    with the error of [versionRoot], and when the pointer path, reached
    without passing through a link or a file, holds something that is not a
    link (a real directory or a file), with the error of [os.Readlink]. *)
Theorem removeCmd_fatal (w : World) (a0 a1 s : string) :
  (forall w' err, removeCmd w [a0; a1; s] = (w', RemoveFatal err) -> w' = w)
  /\ (forall e, os.UserHomeDir w = inr e ->
        removeCmd w [a0; a1; s]
        = (w, RemoveFatal (Errorf "failed to get home directory: %v" e)))
  /\ (forall link n,
        versionRoot w "go" = inl link -> plainPath w link ->
        files w !! link = Some n -> (forall target, n <> Link target) ->
        removeCmd w [a0; a1; s] = (w, RemoveFatal (PathError "readlink" link EINVAL))).
Proof.
  split; [| split].
  - intros w' err. unfold removeCmd. cbv zeta.
    destruct (isDefault w (normalize s)) as [[|]|]; [discriminate | | now intros [= <- _]].
    destruct (versionRoot w (normalize s)) as [goroot|]; [| now intros [= <- _]].
    destruct (os.RemoveAll w goroot) as [? [|]]; discriminate.
  - intros e Hh. unfold removeCmd, isDefault, versionRoot. now rewrite Hh.
  - intros link n El _ En Hn.
    destruct (versionRoot_home _ _ _ El) as [home Hh].
    assert (Er : versionRoot w (normalize s)
                 = inl (filepath.Join [home; "sdk"; normalize s])).
    { unfold versionRoot. now rewrite Hh. }
    unfold removeCmd, isDefault, os.Readlink. cbv zeta. rewrite Er, El, En.
    destruct n as [| |target]; [reflexivity | reflexivity | now elim (Hn target)].
Qed.

Lemma removeCmd_fatal_witness :
  removeCmd demoNoHome ["getgo"; "remove"; "1.15"]
  = (demoNoHome,
     RemoveFatal (Errorf "failed to get home directory: %v" ErrHomeNotDefined))
  /\ removeCmd demoDirectory ["getgo"; "remove"; "1.15"]
     = (demoDirectory, RemoveFatal (PathError "readlink" "/home/u/sdk/go" EINVAL)).
Proof.
  split.
  - apply (proj1 (proj2 (removeCmd_fatal demoNoHome "getgo" "remove" "1.15"))).
    vm_compute. reflexivity.
  - apply (proj2 (proj2 (removeCmd_fatal demoDirectory "getgo" "remove" "1.15"))
             "/home/u/sdk/go" Directory).
    + vm_compute. reflexivity.
    + apply (bool_decide_unpack _). vm_compute. exact I.
    + vm_compute. reflexivity.
    + discriminate.
Defined.

(** ** Install directories *)

Lemma Split_trailing_separator (a : string) (sep : ascii) :
  gostrings.Split (a +:+ String sep EmptyString) sep
  = gostrings.Split a sep ++ [EmptyString].
Proof. now rewrite Split_append_sep. Qed.

(** X15. With home directory [home], the install directory of a version name
    is the cleaned [home/sdk] followed by a separator and the name, the empty
    version gives the [sdk] directory itself, and two version names have the
    same install directory only when they are the same name. *)
Theorem versionRoot_of_names (w : World) (home u v : string) :
  os.UserHomeDir w = inl home -> isName u -> isName v ->
  versionRoot w u = inl (sdkDir home +:+ "/" +:+ u)
  /\ versionRoot w EmptyString = inl (sdkDir home)
  /\ (versionRoot w u = versionRoot w v -> u = v).
Proof.
  intros Hh Hu Hv. split; [now apply versionRoot_name |]. split.
  - unfold versionRoot. rewrite Hh. pose proof (UserHomeDir_ok _ _ Hh) as Hne.
    unfold filepath.Join. case_decide; [contradiction |].
    unfold sdkDir, filepath.Clean.
    assert (Hne' : forall t, home +:+ t <> EmptyString)
      by (destruct home; [congruence | discriminate]).
    change (gostrings.Join [home; "sdk"; EmptyString] "/")
      with (home +:+ "/sdk" +:+ String filepath.Separator EmptyString).
    rewrite <- append_assoc.
    destruct (decide ((home +:+ "/sdk") +:+ String filepath.Separator EmptyString
                      = EmptyString)) as [E|_]; [rewrite append_assoc in E; now apply Hne' in E |].
    destruct (decide (home +:+ "/sdk" = EmptyString)) as [E|_]; [now apply Hne' in E |].
    rewrite Split_trailing_separator, cleanElems_app.
    rewrite (IsAbs_append (home +:+ "/sdk")) by (apply Hne').
    reflexivity.
  - intros E.
    rewrite (versionRoot_name _ _ _ Hh Hu), (versionRoot_name _ _ _ Hh Hv) in E.
    injection E as E. now apply append_inj_l, (append_inj_l "/") in E.
Qed.

Lemma versionRoot_of_names_witness :
  versionRoot demo "go1.15" = inl (sdkDir "/home/u" +:+ "/" +:+ "go1.15")
  /\ versionRoot demo EmptyString = inl (sdkDir "/home/u")
  /\ (versionRoot demo "go1.15" = versionRoot demo "go1.16" -> "go1.15" = "go1.16").
Proof.
  apply (versionRoot_of_names demo "/home/u" "go1.15" "go1.16").
  - vm_compute. reflexivity.
  - apply isName_decide. vm_compute. reflexivity.
  - apply isName_decide. vm_compute. reflexivity.
Defined.

(** ** More on scanning and appending *)

Lemma rawLines_no_line_feed (c : string) :
  Forall (fun raw => hasLF raw = false) (bufio.rawLines c).
Proof.
  induction c as [|a c IH]; simpl; [constructor |].
  destruct (decide (a = bufio.LF)) as [->|Ha].
  - constructor; [reflexivity | assumption].
  - destruct (bufio.rawLines c) as [|h t].
    + constructor; [| constructor]. simpl. rewrite bool_decide_eq_false_2 by assumption. reflexivity.
    + inversion IH as [|? ? Hh Ht]; subst. constructor; [| assumption].
      simpl. rewrite bool_decide_eq_false_2 by assumption. exact Hh.
Qed.

Lemma dropCR_no_line_feed (raw : string) :
  hasLF raw = false -> hasLF (bufio.dropCR raw) = false.
Proof.
  induction raw as [|a raw IH]; [reflexivity |]. intros H.
  simpl in H. apply orb_false_iff in H as [Ha Hraw].
  cbn [bufio.dropCR]. destruct raw as [|b raw].
  - destruct (decide (a = bufio.CR)); [reflexivity |]. simpl. now rewrite Ha.
  - change (hasLF (String a (bufio.dropCR (String b raw))) = false).
    simpl hasLF at 1. cbn [hasLF]. rewrite Ha. simpl. now apply IH.
Qed.

Lemma scanLines_never value l :
  Forall (fun raw => bufio.dropCR raw <> value) l -> (scanLines value l).1 = false.
Proof.
  induction 1 as [|raw l H _ IH]; simpl; [reflexivity |].
  destruct (bufio.tooLong raw); [reflexivity |].
  destruct (decide (bufio.dropCR raw = value)); [contradiction | exact IH].
Qed.

Lemma checkStringExistsFile_cases w filename value :
  (exists err, checkStringExistsFile w filename value = (false, Some err))
  \/ checkStringExistsFile w filename value = (false, None)
  \/ exists q c,
       os.follow (files w) os.maxSymlinks filename = inl q
       /\ files w !! q = Some (Regular c)
       /\ checkStringExistsFile w filename value = scanLines value (bufio.rawLines c).
Proof.
  unfold checkStringExistsFile, os.OpenFile_RDONLY.
  destruct (os.follow (files w) os.maxSymlinks filename) as [q|e] eqn:F.
  - destruct (files w !! q) as [n|] eqn:E.
    + unfold os.ReadAll. rewrite E. destruct n as [|c|t].
      * left. eauto.
      * right. right. exists q, c. auto.
      * left. eauto.
    + simpl. auto.
  - rewrite (follow_error _ _ _ _ F). simpl. eauto.
Qed.

(** X16. A value that holds a line feed is never found by
    [checkStringExistsFile], whatever the file holds; so every
    [appendToFile] of such a value that succeeds has written it once more at
    the end of the file. *)
Theorem appendToFile_line_feed_value (lineEnding : string) (w : World)
    (filename value : string) :
  hasLF value = true ->
  (checkStringExistsFile w filename value).1 = false
  /\ forall w1, appendToFile lineEnding w filename value = (w1, None) ->
       exists q c,
         os.follow (files w1) os.maxSymlinks filename = inl q
         /\ files w1 !! q = Some (Regular (c +:+ lineEnding +:+ value +:+ lineEnding)).
Proof.
  intros Hlf.
  assert (Hnever : (checkStringExistsFile w filename value).1 = false).
  { destruct (checkStringExistsFile_cases w filename value)
      as [[err ->]|[->|(q & c & _ & _ & ->)]]; try reflexivity.
    apply scanLines_never.
    eapply Forall_impl; [apply rawLines_no_line_feed |].
    intros raw Hraw E. apply dropCR_no_line_feed in Hraw. congruence. }
  split; [exact Hnever |].
  intros w1 Happ.
  assert (C : checkStringExistsFile w filename value = (false, None)).
  { unfold appendToFile in Happ.
    destruct (checkStringExistsFile w filename value) as [[|] [err|]];
      try discriminate; reflexivity. }
  destruct (appendToFile_written lineEnding w filename value w1 C Happ)
    as (q & c & F & E & _).
  eauto.
Qed.

(** X17. A line of 64 KiB or more that comes before any line equal to the
    value stops the scan: [appendToFile] returns [bufio.ErrTooLong] and
    writes nothing. *)
Theorem appendToFile_line_too_long (lineEnding : string) (w : World)
    (filename value q c raw : string) (before after : list string) :
  os.follow (files w) os.maxSymlinks filename = inl q ->
  files w !! q = Some (Regular c) ->
  bufio.rawLines c = before ++ raw :: after ->
  Forall (fun r => bufio.dropCR r <> value) before ->
  bufio.tooLong raw = true ->
  checkStringExistsFile w filename value = (false, Some ErrTooLong)
  /\ appendToFile lineEnding w filename value = (w, Some ErrTooLong).
Proof.
  intros F E Hl Hbefore Hlong.
  assert (C : checkStringExistsFile w filename value = (false, Some ErrTooLong)).
  { unfold checkStringExistsFile, os.OpenFile_RDONLY, os.ReadAll.
    rewrite F, E. cbv beta iota. rewrite E, Hl, scanLines_app.
    assert (Hs : scanLines value before = (false, None)
                 \/ scanLines value before = (false, Some ErrTooLong)).
    { clear Hl. induction Hbefore as [|r l Hr _ IH]; simpl; [auto |].
      destruct (bufio.tooLong r); [auto |].
      destruct (decide (bufio.dropCR r = value)); [contradiction | exact IH]. }
    destruct Hs as [->| ->]; [| reflexivity]. simpl. now rewrite Hlong. }
  split; [exact C |]. unfold appendToFile. now rewrite C.
Qed.

(** X18. [appendToFile] on a name whose file does not exist, and is reached
    without passing through a link or a file, creates it with the value
    between two line endings when the directory exists and the entry may be
    created, and fails with "no such file or directory", changing nothing,
    when the directory does not exist. *)
Theorem appendToFile_missing_file (lineEnding : string) (w : World)
    (filename value q : string) :
  os.follow (files w) os.maxSymlinks filename = inl q ->
  files w !! q = None ->
  plainPath w q ->
  (files w !! filepath.Dir q = Some Directory -> q ∉ locked w ->
     appendToFile lineEnding w filename value
     = (os.setFiles w (<[q := Regular (lineEnding +:+ value +:+ lineEnding)]> (files w)),
        None))
  /\ (files w !! filepath.Dir q = None ->
      appendToFile lineEnding w filename value
      = (w, Some (PathError "open" filename ENOENT))).
Proof.
  intros F E _.
  assert (C : checkStringExistsFile w filename value = (false, None)).
  { unfold checkStringExistsFile, os.OpenFile_RDONLY. now rewrite F, E. }
  unfold appendToFile. rewrite C. unfold os.OpenFile_APPEND. rewrite F, E. split.
  - intros Hdir Hlock. rewrite Hdir, (bool_decide_eq_false_2 _ Hlock).
    unfold os.WriteString. cbn [files os.setFiles]. rewrite lookup_insert_eq.
    unfold os.setFiles. cbn [files locked vars]. now rewrite insert_insert_eq.
  - intros Hdir. now rewrite Hdir.
Qed.

Lemma OpenFile_APPEND_frame w name :
  vars (os.OpenFile_APPEND w name).1 = vars w
  /\ locked (os.OpenFile_APPEND w name).1 = locked w
  /\ (forall k n, files w !! k = Some n -> files (os.OpenFile_APPEND w name).1 !! k = Some n).
Proof.
  unfold os.OpenFile_APPEND. repeat case_match; simpl; repeat split; auto.
  intros k' n' Hk. rewrite lookup_insert_ne; [assumption | congruence].
Qed.

(** X19. [appendToFile] never removes or shortens anything: whether it
    succeeds or fails, every entry of the file system is afterwards as it
    was, or is the same file with the value between two line endings added at
    its end; the environment is not changed. *)
Theorem appendToFile_append_only (lineEnding : string) (w : World) (filename value : string) :
  vars (appendToFile lineEnding w filename value).1 = vars w
  /\ locked (appendToFile lineEnding w filename value).1 = locked w
  /\ forall k n, files w !! k = Some n ->
       files (appendToFile lineEnding w filename value).1 !! k = Some n
       \/ exists c, n = Regular c
                    /\ files (appendToFile lineEnding w filename value).1 !! k
                       = Some (Regular (c +:+ lineEnding +:+ value +:+ lineEnding)).
Proof.
  unfold appendToFile.
  destruct (checkStringExistsFile w filename value) as [[|] [err|]];
    [now simpl; auto | now simpl; auto | now simpl; auto |].
  destruct (OpenFile_APPEND_frame w filename) as (Hv & Hl & Hf).
  destruct (os.OpenFile_APPEND w filename) as [w1 [f|err']] eqn:O;
    cbn [fst] in *; [| now auto].
  unfold os.WriteString.
  destruct (files w1 !! f) as [n0|] eqn:E; [| now cbn [fst]; auto].
  destruct n0 as [|c|t]; cbn [fst]; [now auto | | now auto].
  split; [exact Hv |]. split; [exact Hl |].
  intros k n Hk. cbn [files os.setFiles].
  destruct (decide (k = f)) as [->|Hne].
  - rewrite lookup_insert_eq. pose proof (Hf _ _ Hk) as Hk1.
    rewrite E in Hk1. injection Hk1 as <-. right. eauto.
  - rewrite lookup_insert_ne by congruence. auto.
Qed.

(** X20. For a line of text and either line ending, a successful
    [appendToFile] leaves the line in the file, whatever the file held
    before. *)
Theorem appendToFile_line_present (lineEnding : string) (w w1 : World)
    (filename value : string) :
  isLineEnding lineEnding -> isLine value ->
  appendToFile lineEnding w filename value = (w1, None) ->
  0 < occurrences w1 filename value.
Proof.
  intros Hle Hv Happ.
  destruct (checkStringExistsFile w filename value) as [[|] [err|]] eqn:C;
    unfold appendToFile in Happ; rewrite C in Happ; try discriminate.
  - injection Happ as <-. now apply checkStringExistsFile_found.
  - assert (Happ' : appendToFile lineEnding w filename value = (w1, None)).
    { unfold appendToFile. now rewrite C. }
    destruct (appendToFile_written lineEnding w filename value w1 C Happ')
      as (q & c & F & E & Hc).
    destruct (appended_once lineEnding Hle w1 filename value q c Hv F E Hc) as [-> _]. lia.
Qed.

(** ** The search path *)

Lemma Split_no_byte (v : string) (sep : ascii) :
  containsByte sep v = false -> gostrings.Split v sep = [v].
Proof.
  induction v as [|x v IH]; simpl; [reflexivity |].
  intros H. apply orb_false_iff in H as [Hx Hv]. apply bool_decide_eq_false in Hx.
  destruct (decide (x = sep)); [contradiction |]. now rewrite (IH Hv).
Qed.

Lemma Split_cons (s : string) (sep : ascii) :
  exists h t,
    gostrings.Split s sep = h :: t /\ containsByte sep h = false
    /\ ((t = [] /\ s = h)
        \/ exists r, t = gostrings.Split r sep /\ s = h +:+ String sep r).
Proof.
  induction s as [|a s (h & t & E & Hh & Ht)]; simpl.
  - exists EmptyString, []. auto.
  - destruct (decide (a = sep)) as [->|Ha].
    + exists EmptyString, (gostrings.Split s sep). repeat split. right. eauto.
    + rewrite E. exists (String a h), t. split; [reflexivity |]. split.
      * simpl. rewrite Hh. now rewrite bool_decide_eq_false_2.
      * destruct Ht as [[-> ->]|(r & -> & ->)]; [left; auto | right; eauto].
Qed.

Lemma inPaths_In (dir : string) (paths : list string) :
  inPaths dir paths = true <-> In dir paths.
Proof.
  induction paths as [|d rest IH]; simpl; [split; [discriminate | tauto] |].
  destruct (decide (d = dir)) as [->|Hne]; [tauto |].
  rewrite IH. split; [tauto | intros [?|?]; [contradiction | assumption]].
Qed.

Lemma Split_In_whole (sep : ascii) (l : list string) :
  forall s d, gostrings.Split s sep = l -> In d l ->
    containsByte sep d = false
    /\ exists pre post,
         s = pre +:+ d +:+ post
         /\ (pre = EmptyString \/ exists p, pre = p +:+ String sep EmptyString)
         /\ (post = EmptyString \/ exists q, post = String sep q).
Proof.
  induction l as [|h t IH]; intros s d E Hin; [contradiction |].
  destruct (Split_cons s sep) as (h' & t' & E' & Hh & Ht).
  rewrite E in E'. injection E' as <- <-.
  destruct Hin as [<-|Hin].
  - split; [exact Hh |]. exists EmptyString.
    destruct Ht as [[-> ->]|(r & -> & ->)].
    + exists EmptyString. rewrite append_nil_r. auto.
    + exists (String sep r). repeat split; eauto.
  - destruct Ht as [[-> _]|(r & Et & ->)]; [contradiction |].
    destruct (IH r d (eq_sym Et) Hin) as (Hd & pre & post & -> & Hpre & Hpost).
    split; [exact Hd |].
    exists (h +:+ String sep pre), post. split; [now rewrite append_assoc |].
    split; [| exact Hpost]. right.
    destruct Hpre as [->|[p ->]].
    + exists h. reflexivity.
    + exists (h +:+ String sep p). now rewrite append_assoc.
Qed.

(** X21. [isInPATH] compares whole elements of [PATH]: a directory is found
    exactly when it holds no separator and stands in [PATH] between
    separators or the ends of the value; no part of an element and no other
    spelling of the same directory is found. *)
Theorem isInPATH_whole_element (envSeparator : ascii) (w : World) (dir : string) :
  isInPATH envSeparator w dir = true <->
  containsByte envSeparator dir = false
  /\ exists pre post,
       os.Getenv w "PATH" = pre +:+ dir +:+ post
       /\ (pre = EmptyString \/ exists p, pre = p +:+ String envSeparator EmptyString)
       /\ (post = EmptyString \/ exists q, post = String envSeparator q).
Proof.
  unfold isInPATH. rewrite inPaths_In. split.
  - intros Hin. exact (Split_In_whole envSeparator _ _ dir eq_refl Hin).
  - intros (Hd & pre & post & -> & Hpre & Hpost).
    assert (Hmid : forall post,
              (post = EmptyString \/ exists q, post = String envSeparator q) ->
              In dir (gostrings.Split (dir +:+ post) envSeparator)).
    { intros po [->|[q ->]].
      - rewrite append_nil_r, Split_no_byte by assumption. now left.
      - rewrite Split_append_sep, Split_no_byte by assumption. now left. }
    destruct Hpre as [->|[p ->]]; [now apply Hmid |].
    rewrite append_assoc.
    change (String envSeparator EmptyString +:+ dir +:+ post)
      with (String envSeparator (dir +:+ post)).
    rewrite Split_append_sep. apply in_or_app. right. now apply Hmid.
Qed.

(** ** Persisting a variable *)

Lemma Setenv_ok w key value w1 :
  os.Setenv w key value = (w1, None) ->
  os.Getenv w1 key = value /\ files w1 = files w /\ locked w1 = locked w
  /\ vars w1 = <[key := value]> (vars w).
Proof.
  unfold os.Setenv. case_match; [discriminate |]. intros [= <-].
  unfold os.Getenv. simpl. now rewrite lookup_insert_eq.
Qed.

Section PathProperties.

Variable rt : runtime.
Variable run : World -> string -> list string -> World * option error.
Variable lineEnding : string.
Variable currentShell : string.
Variable pathVar : string.
Variable envSeparator : ascii.
Variable persistEnvChangesForSession : World -> option error.

Lemma persistEnvVar_Getenv (w w1 : World) (name value : string) :
  persistEnvVar rt lineEnding currentShell run w name value = (w1, None) ->
  os.Getenv w1 (gostrings.ToUpper name) = value.
Proof.
  assert (Hprofile : forall w0,
            persistInProfile lineEnding currentShell w0 name value = (w1, None) ->
            os.Getenv w1 (gostrings.ToUpper name) = value).
  { intros w0. unfold persistInProfile.
    destruct (shellConfigFile currentShell w0) as [rc|]; [| discriminate].
    destruct (appendToFile lineEnding w0 rc _) as [w2 [|]]; [discriminate |].
    intros Hs. now apply Setenv_ok in Hs. }
  unfold persistEnvVar. case_bool_decide; [| apply Hprofile].
  destruct (persistEnvVarWindows run w name value) as [w2 [|]]; [discriminate |].
  destruct (isShell currentShell "cmd.exe" || isShell currentShell "powershell.exe");
    [| apply Hprofile].
  intros Hs. now apply Setenv_ok in Hs.
Qed.

(** X22. After a successful [persistEnvVar] the environment of the process
    holds the value under the upper-cased name, on every platform and for
    every shell. *)
Theorem persistEnvVar_sets_variable (w w1 : World) (name value : string) :
  persistEnvVar rt lineEnding currentShell run w name value = (w1, None) ->
  os.Getenv w1 (gostrings.ToUpper name) = value.
Proof. apply persistEnvVar_Getenv. Qed.

(** X23. When [appendToPATH] succeeds for a directory without a separator in
    its name, the directory is in the [PATH] of the process afterwards and a
    second [appendToPATH] of it does nothing. When the directory was not in
    [PATH], the new value of [PATH] is [pathVar], the separator and the
    directory. *)
Theorem appendToPATH_twice (w w1 : World) (value : string) :
  containsByte envSeparator value = false ->
  appendToPATH rt run lineEnding currentShell pathVar envSeparator w value = (w1, None) ->
  isInPATH envSeparator w1 value = true
  /\ appendToPATH rt run lineEnding currentShell pathVar envSeparator w1 value = (w1, None)
  /\ (isInPATH envSeparator w value = false ->
      os.Getenv w1 "PATH" = pathVar +:+ String envSeparator EmptyString +:+ value).
Proof.
  intros Hv. unfold appendToPATH at 1.
  destruct (isInPATH envSeparator w value) eqn:Hin.
  - intros [= <-]. split; [exact Hin |]. split; [| discriminate].
    unfold appendToPATH. now rewrite Hin.
  - intros H. apply persistEnvVar_Getenv in H.
    change (gostrings.ToUpper "PATH") with "PATH" in H.
    assert (Hin1 : isInPATH envSeparator w1 value = true).
    { unfold isInPATH. rewrite H.
      change (pathVar +:+ String envSeparator EmptyString +:+ value)
        with (pathVar +:+ String envSeparator value).
      rewrite Split_append_sep, (Split_no_byte value) by assumption.
      apply inPaths_In, in_or_app. right. now left. }
    split; [exact Hin1 |]. split; [| intros _; exact H].
    unfold appendToPATH. now rewrite Hin1.
Qed.


(** X25. Where [GOPATH] is set and both [bin] directories are in [PATH],
    [setupGOPATH] writes nothing and sets nothing, whatever the shell: its
    result is the one of [persistEnvChangesForSession] on the unchanged
    state. *)
Theorem setupGOPATH_configured (stdin : scanned) (w : World) (home gopath link : string) :
  os.UserHomeDir w = inl home ->
  os.Getenv w "GOPATH" = gopath -> gopath <> EmptyString ->
  versionRoot w "go" = inl link ->
  isInPATH envSeparator w (filepath.Join [link; "bin"]) = true ->
  isInPATH envSeparator w (filepath.Join [gopath; "bin"]) = true ->
  setupGOPATH rt run lineEnding currentShell pathVar envSeparator
    persistEnvChangesForSession stdin w false
  = (w, persistEnvChangesForSession w).
Proof.
  intros Hh Hg Hne Hl H1 H2. unfold setupGOPATH, prompt. cbn [negb].
  change (bool_decide (gostrings.ToLower "Y" = "y")) with true. cbn [negb].
  rewrite Hh, Hg, (bool_decide_eq_false_2 _ Hne), Hl.
  unfold appendToPATH. now rewrite H1, H2.
Qed.

End PathProperties.

(** ** Listing the versions *)

Lemma Base_nonempty path : filepath.Base path <> EmptyString.
Proof.
  unfold filepath.Base. destruct (decide (path = EmptyString)); [discriminate |].
  cbv zeta. destruct (decide (_ = EmptyString)) as [_|Hne]; [discriminate | exact Hne].
Qed.

Lemma installedNames_elem dirs : forall installed v,
  v ∈ installedNames dirs installed <->
  v ∈ installed \/ exists p, In p dirs /\ filepath.Base p = v.
Proof.
  induction dirs as [|p dirs IH]; intros installed v; simpl.
  - split; [auto | intros [Hv|(p & [] & _)]; exact Hv].
  - rewrite IH, elem_of_union, elem_of_singleton. split.
    + intros [[->|Hv]|(q & Hq & Hb)]; eauto.
    + intros [Hv|(q & [<-|Hq] & Hb)]; eauto.
Qed.

Lemma listLines_installable rt installed currentVersion requireAll releases :
  listLines rt installed currentVersion requireAll (installable rt releases)
  = flat_map (listedLine installed currentVersion requireAll) (installable rt releases).
Proof.
  assert (Hvalid : Forall (fun v => isValidArchive rt v = true) (installable rt releases)).
  { apply List.Forall_forall. intros v Hv. unfold installable in Hv.
    apply in_flat_map in Hv as (r & _ & Hv). destruct (Release.Stable r); [| contradiction].
    now apply filter_In in Hv. }
  induction Hvalid as [|v versions Hv _ IH]; [reflexivity |].
  cbn [listLines flat_map]. rewrite Hv, IH. cbn [negb]. unfold listedLine.
  repeat case_bool_decide; try reflexivity. now destruct requireAll.
Qed.

Section ListProperties.

Variable rt : runtime.
Variable findGo : World -> string.
Variable runOut : World -> string -> list string -> string + error.
Variable Glob : World -> string -> list string + error.

(** X26. What [listCmd] prints, when it prints: the catalog was read and
    [filepath.Glob] has answered, for the pattern [go?*] in the [sdk]
    directory, with a list of directories. Every line carries one of the
    three marks and the version of an installable archive of a stable
    release of the catalog, so a directory that the catalog does not name is
    never listed. The mark is a blank exactly for a version that is the name
    of none of these directories, and such lines appear only with [all] or
    [-a] as the third argument. The mark is [*] exactly for a version that is
    the name of one of these directories and the output of
    [go tool dist version]; where no [go] command is found no line is marked
    [*]. *)
Theorem listCmd_marks (w : World) (Args : list string) (res : Response)
    (lines : list (string * string)) :
  listCmd rt findGo runOut Glob w Args res = Listed lines ->
  exists releases dirs,
    res = Answer 200 (Some releases)
    /\ Glob w (match os.UserHomeDir w with
               | inl home => filepath.Join [filepath.Join [home; "sdk"; EmptyString]; "go?*"]
               | inr _ => "go?*"
               end) = inl dirs
    /\ forall mark version, In (mark, version) lines ->
         let inDirs := exists p, In p dirs /\ filepath.Base p = version in
         (exists v, In v (installable rt releases) /\ Version.Version v = version)
         /\ (mark = "*" \/ mark = "+" \/ mark = " ")
         /\ (mark = " " <-> ~ inDirs)
         /\ (mark = " " ->
             length Args = 3 /\ (Args !! 2 = Some "all" \/ Args !! 2 = Some "-a"))
         /\ (mark = "*" <->
             inDirs /\ findGo w <> EmptyString
             /\ runOut w (findGo w) ["tool"; "dist"; "version"] = inl version).
Proof.
  unfold listCmd.
  assert (Hpattern :
            filepath.Join
              [match versionRoot w EmptyString with
               | inl base => base
               | inr _ => EmptyString
               end; "go?*"]
            = match os.UserHomeDir w with
              | inl home => filepath.Join [filepath.Join [home; "sdk"; EmptyString]; "go?*"]
              | inr _ => "go?*"
              end).
  { unfold versionRoot. destruct (os.UserHomeDir w); reflexivity. }
  rewrite Hpattern.
  destruct (Glob w _) as [dirs|] eqn:Hglob; [| discriminate]. cbv zeta.
  set (installed := installedNames dirs ∅).
  set (requireAll := (length Args =? 3) && _).
  destruct (if negb (bool_decide (findGo w = EmptyString)) then _ else _)
    as [currentVersion|] eqn:Hcur; [| discriminate].
  destruct (listVersions rt res) as [versions|] eqn:Hl; [| discriminate].
  apply listVersions_ok in Hl as (releases & -> & ->).
  rewrite listLines_installable. intros [= <-].
  exists releases, dirs. split; [reflexivity |]. split; [reflexivity |].
  intros mark version Hin.
  set (inDirs := exists p, In p dirs /\ filepath.Base p = version).
  assert (Hinst : forall v, v ∈ installed <-> exists p, In p dirs /\ filepath.Base p = v).
  { intros v. unfold installed. rewrite installedNames_elem. split; [| auto].
    intros [Hv|Hv]; [| exact Hv]. now apply not_elem_of_empty in Hv. }
  assert (Hcurrent : currentVersion = version <->
            version = EmptyString /\ findGo w = EmptyString
            \/ findGo w <> EmptyString
               /\ runOut w (findGo w) ["tool"; "dist"; "version"] = inl version).
  { destruct (bool_decide_reflect (findGo w = EmptyString)) as [Hg|Hg]; cbn [negb] in Hcur.
    - injection Hcur as <-. split; [intros <-; auto |].
      intros [[-> _]|[Hne _]]; [reflexivity | contradiction].
    - rewrite Hcur. split; [intros <-; auto |].
      intros [[_ He]|[_ He]]; [contradiction | congruence]. }
  assert (Hall : requireAll = true ->
            length Args = 3 /\ (Args !! 2 = Some "all" \/ Args !! 2 = Some "-a")).
  { unfold requireAll. intros Hr. apply andb_true_iff in Hr as [Hlen Harg].
    apply Nat.eqb_eq in Hlen. apply orb_true_iff in Harg.
    split; [exact Hlen |]. destruct Harg as [Ha|Ha]; apply bool_decide_eq_true in Ha; auto. }
  apply in_flat_map in Hin as (v & Hv & Hline). unfold listedLine in Hline.
  assert (Hnamed : inDirs -> version <> EmptyString).
  { intros (p & _ & <-). apply Base_nonempty. }
  case_bool_decide as Hi.
  - destruct Hline as [Hline|[]]. apply Hinst in Hi.
    case_bool_decide as Hc; injection Hline as <- <-.
    + repeat split; eauto; try discriminate; try tauto.
    + repeat split; eauto; try discriminate; try tauto.
  - destruct requireAll; [| contradiction]. destruct Hline as [Hline|[]].
    injection Hline as <- <-.
    assert (Hno : ~ inDirs) by (intros Hd; apply Hi, Hinst, Hd).
    repeat split; eauto; try discriminate; try tauto.
Qed.

(** X27. With [all] or [-a], a catalog that was read and a [go] command that
    reports its version (or no [go] command), [listCmd] prints one line for
    each installable archive of a stable release, in the order of the
    catalog; without them it prints the lines of the same list whose version
    has a directory. A home directory that cannot be determined is no error
    for [listCmd]: the pattern it hands to [filepath.Glob] is then the
    relative [go?*]. *)
Theorem listCmd_lines (w : World) (Args : list string) (releases : list Release.t)
    (dirs : list string) :
  let pattern := match os.UserHomeDir w with
                 | inl home => filepath.Join [filepath.Join [home; "sdk"; EmptyString]; "go?*"]
                 | inr _ => "go?*"
                 end in
  let all := bool_decide (length Args = 3
                          /\ (Args !! 2 = Some "all" \/ Args !! 2 = Some "-a")) in
  Glob w pattern = inl dirs ->
  forall currentVersion,
    (if bool_decide (findGo w = EmptyString) then currentVersion = EmptyString
     else runOut w (findGo w) ["tool"; "dist"; "version"] = inl currentVersion) ->
  exists lines,
    listCmd rt findGo runOut Glob w Args (Answer 200 (Some releases)) = Listed lines
    /\ map snd lines
       = if all then map Version.Version (installable rt releases)
         else List.filter (fun v => bool_decide (v ∈ installedNames dirs ∅))
                (map Version.Version (installable rt releases)).
Proof.
  intros pattern all Hglob currentVersion Hcur.
  set (requireAll := (length Args =? 3)
         && (bool_decide (Args !! 2 = Some "all") || bool_decide (Args !! 2 = Some "-a"))).
  exists (flat_map (listedLine (installedNames dirs ∅) currentVersion requireAll)
            (installable rt releases)).
  split.
  - unfold listCmd, versionRoot. fold requireAll.
    assert (Hpattern :
              filepath.Join
                [match
                   match os.UserHomeDir w with
                   | inl homedir => inl (filepath.Join [homedir; "sdk"; EmptyString])
                   | inr err => inr (Errorf "failed to get home directory: %v" err)
                   end
                 with
                 | inl base => base
                 | inr _ => EmptyString
                 end; "go?*"] = pattern).
    { unfold pattern. destruct (os.UserHomeDir w); reflexivity. }
    rewrite Hpattern, Hglob. cbv zeta.
    assert ((if negb (bool_decide (findGo w = EmptyString))
             then runOut w (findGo w) ["tool"; "dist"; "version"]
             else inl EmptyString) = inl currentVersion) as ->.
    { destruct (bool_decide (findGo w = EmptyString)); cbn [negb]; congruence. }
    change (listVersions rt (Answer 200 (Some releases)))
      with (@inl _ error (filterReleases rt releases [])).
    rewrite filterReleases_spec. cbn [app].
    now rewrite listLines_installable.
  - assert (all = requireAll) as ->.
    { unfold all, requireAll. destruct (Nat.eqb_spec (length Args) 3);
        repeat case_bool_decide; simpl; try reflexivity; tauto. }
    clear Hcur Hglob.
    induction (installable rt releases) as [|v versions IH]; [now destruct requireAll |].
    cbn [flat_map map]. rewrite map_app, IH. unfold listedLine.
    destruct requireAll; cbn [List.filter];
      destruct (bool_decide (Version.Version v ∈ installedNames dirs ∅)); reflexivity.
Qed.

End ListProperties.

(** ** The environment after the setup *)

Lemma appendToFile_vars lineEnding w filename value :
  vars (appendToFile lineEnding w filename value).1 = vars w.
Proof.
  unfold appendToFile.
  destruct (checkStringExistsFile w filename value) as [[|] [err|]]; try reflexivity.
  destruct (OpenFile_APPEND_frame w filename) as (Hv & _ & _).
  destruct (os.OpenFile_APPEND w filename) as [w1 [f|err']]; cbn [fst] in *; [| exact Hv].
  unfold os.WriteString. destruct (files w1 !! f) as [[|c|t]|]; exact Hv.
Qed.

Lemma Setenv_vars w key value k :
  k <> key -> vars (os.Setenv w key value).1 !! k = vars w !! k.
Proof.
  intros Hk. unfold os.Setenv. case_match; [reflexivity |].
  cbn [fst vars]. now rewrite lookup_insert_ne by congruence.
Qed.

Section SetupEnvironment.

Variable rt : runtime.
Variable run : World -> string -> list string -> World * option error.
Variable lineEnding : string.
Variable currentShell : string.
Variable pathVar : string.
Variable envSeparator : ascii.
Variable persistEnvChangesForSession : World -> option error.
Hypothesis notWindows : GOOS rt <> "windows".

Lemma persistEnvVar_vars w name value k :
  k <> gostrings.ToUpper name ->
  vars (persistEnvVar rt lineEnding currentShell run w name value).1 !! k = vars w !! k.
Proof.
  intros Hk. unfold persistEnvVar. rewrite bool_decide_eq_false_2 by exact notWindows.
  unfold persistInProfile. destruct (shellConfigFile currentShell w) as [rc|]; [| reflexivity].
  pose proof (appendToFile_vars lineEnding w rc
                ("export " +:+ gostrings.ToUpper name +:+ "=" +:+ value)) as Hv.
  destruct (appendToFile lineEnding w rc _) as [w1 [err|]]; cbn [fst] in *.
  - now rewrite Hv.
  - now rewrite Setenv_vars, Hv.
Qed.

Lemma appendToPATH_vars w value k :
  k <> "PATH" ->
  vars (appendToPATH rt run lineEnding currentShell pathVar envSeparator w value).1 !! k
  = vars w !! k.
Proof.
  intros Hk. unfold appendToPATH. destruct (isInPATH envSeparator w value); [reflexivity |].
  now apply persistEnvVar_vars.
Qed.

(** X28. Off Windows, [setupGOPATH] changes no variable of the process other
    than [GOPATH] and [PATH], whether it succeeds or fails, and a [GOPATH]
    that is set is left as it is. *)
Theorem setupGOPATH_environment (stdin : scanned) (w : World) (interactive : bool) :
  let w' := (setupGOPATH rt run lineEnding currentShell pathVar envSeparator
               persistEnvChangesForSession stdin w interactive).1 in
  (forall k, k <> "GOPATH" -> k <> "PATH" -> vars w' !! k = vars w !! k)
  /\ (os.Getenv w "GOPATH" <> EmptyString -> os.Getenv w' "GOPATH" = os.Getenv w "GOPATH").
Proof.
  intros w'.
  assert (Hvars : forall k, k <> "PATH" ->
            (k = "GOPATH" -> os.Getenv w "GOPATH" <> EmptyString) ->
            vars w' !! k = vars w !! k).
  { intros k Hpath Hgopath. subst w'. unfold setupGOPATH.
    destruct (prompt stdin _ "Y" interactive) as [answer [err|]]; [reflexivity |].
    destruct (negb (bool_decide (gostrings.ToLower answer = "y"))); [reflexivity |].
    destruct (os.UserHomeDir w) as [home|]; [| reflexivity].
    assert (Hset :
              vars (if bool_decide (os.Getenv w "GOPATH" = EmptyString)
               then match persistEnvVar rt lineEnding currentShell run w "GOPATH"
                            (filepath.Join [home; "go"]) with
                    | (w1, Some err) => (w1, inr err)
                    | (w1, None) => (w1, inl (filepath.Join [home; "go"]))
                    end
               else (w, @inl string error (os.Getenv w "GOPATH"))).1 !! k
              = vars w !! k).
    { case_bool_decide as Hg; [| reflexivity].
      pose proof (persistEnvVar_vars w "GOPATH" (filepath.Join [home; "go"]) k) as Hp.
      destruct (persistEnvVar _ _ _ _ _ _ _) as [w2 [err|]]; cbn [fst] in *;
        apply Hp; intros ->; now apply Hgopath. }
    cbv zeta.
    destruct (if bool_decide (os.Getenv w "GOPATH" = EmptyString) then _ else _)
      as [w1 [gopath|err]]; cbn [fst] in *; [| exact Hset]. rename Hset into Eset.
    destruct (versionRoot w1 "go") as [defaultGoRoot|]; [| exact Eset].
    pose proof (appendToPATH_vars w1 (filepath.Join [defaultGoRoot; "bin"]) k Hpath) as H2.
    destruct (appendToPATH _ _ _ _ _ _ w1 _) as [w2 [err|]]; cbn [fst] in *;
      [now rewrite H2 |].
    pose proof (appendToPATH_vars w2 (filepath.Join [gopath; "bin"]) k Hpath) as H3.
    destruct (appendToPATH _ _ _ _ _ _ w2 _) as [w3 [err|]]; cbn [fst] in *;
      now rewrite H3, H2. }
  split.
  - intros k Hg Hp. apply Hvars; [exact Hp | intros ->; contradiction].
  - intros Hg. unfold os.Getenv. rewrite Hvars; [reflexivity | discriminate | auto].
Qed.

End SetupEnvironment.

Lemma setupGOPATH_environment_witness :
  let w' := (setupGOPATH linux noRun LF "/bin/bash" "$PATH" ":"%char (fun _ => None)
               (ScanLine "y") demoProfile true).1 in
  (forall k, k <> "GOPATH" -> k <> "PATH" -> vars w' !! k = vars demoProfile !! k)
  /\ (os.Getenv demoProfile "GOPATH" <> EmptyString ->
      os.Getenv w' "GOPATH" = os.Getenv demoProfile "GOPATH").
Proof.
  apply (setupGOPATH_environment linux noRun LF "/bin/bash" "$PATH" ":"%char
           (fun _ => None)).
  vm_compute. discriminate.
Defined.

(** ** The properties at concrete inputs *)

Lemma appendToFile_line_feed_value_witness :
  let w := (appendToFile LF demoProfile "/home/u/.bash_profile" twoLines).1 in
  (checkStringExistsFile w "/home/u/.bash_profile" twoLines).1 = false
  /\ forall w1, appendToFile LF w "/home/u/.bash_profile" twoLines = (w1, None) ->
       exists q c,
         os.follow (files w1) os.maxSymlinks "/home/u/.bash_profile" = inl q
         /\ files w1 !! q = Some (Regular (c +:+ LF +:+ twoLines +:+ LF)).
Proof.
  intros w.
  apply (appendToFile_line_feed_value LF w "/home/u/.bash_profile" twoLines).
  vm_compute. reflexivity.
Defined.

Lemma appendToFile_line_too_long_witness :
  checkStringExistsFile demoLongProfile "/home/u/.bash_profile" exportLine
  = (false, Some ErrTooLong)
  /\ appendToFile LF demoLongProfile "/home/u/.bash_profile" exportLine
     = (demoLongProfile, Some ErrTooLong).
Proof.
  apply (appendToFile_line_too_long LF demoLongProfile "/home/u/.bash_profile" exportLine
           "/home/u/.bash_profile" (repeatByte (Z.to_nat 65536) "a")
           (repeatByte (Z.to_nat 65536) "a") [] []).
  - reflexivity.
  - reflexivity.
  - apply (bool_decide_unpack _). vm_compute. exact I.
  - constructor.
  - vm_compute. reflexivity.
Defined.

Lemma appendToFile_missing_file_witness :
  (files demo !! filepath.Dir "/home/u/.zshrc" = Some Directory ->
   "/home/u/.zshrc" ∉ locked demo ->
   appendToFile LF demo "/home/u/.zshrc" exportLine
   = (os.setFiles demo
        (<["/home/u/.zshrc" := Regular (LF +:+ exportLine +:+ LF)]> (files demo)), None))
  /\ (files demo !! filepath.Dir "/home/u/.zshrc" = None ->
      appendToFile LF demo "/home/u/.zshrc" exportLine
      = (demo, Some (PathError "open" "/home/u/.zshrc" ENOENT))).
Proof.
  apply (appendToFile_missing_file LF demo "/home/u/.zshrc" exportLine "/home/u/.zshrc").
  - vm_compute. reflexivity.
  - vm_compute. reflexivity.
  - apply (bool_decide_unpack _). vm_compute. exact I.
Defined.

Lemma appendToFile_append_only_witness :
  files (appendToFile LF demoProfile "/home/u/.bash_profile" exportLine).1
    !! "/home/u/.bash_profile" = Some (Regular "# profile")
  \/ exists c,
       Regular "# profile" = Regular c
       /\ files (appendToFile LF demoProfile "/home/u/.bash_profile" exportLine).1
            !! "/home/u/.bash_profile"
          = Some (Regular (c +:+ LF +:+ exportLine +:+ LF)).
Proof.
  apply (proj2 (proj2 (appendToFile_append_only LF demoProfile "/home/u/.bash_profile"
                         exportLine))).
  vm_compute. reflexivity.
Defined.

Lemma appendToFile_line_present_witness :
  0 < occurrences (appendToFile LF demoProfile "/home/u/.bash_profile" exportLine).1
        "/home/u/.bash_profile" exportLine.
Proof.
  apply (appendToFile_line_present LF demoProfile
           (appendToFile LF demoProfile "/home/u/.bash_profile" exportLine).1
           "/home/u/.bash_profile" exportLine).
  - left. reflexivity.
  - apply isLine_decide. vm_compute. reflexivity.
  - vm_compute. reflexivity.
Defined.

Lemma persistEnvVar_sets_variable_witness :
  os.Getenv (persistEnvVar linux LF "/bin/bash" noRun demoProfile "gopath" "/home/u/go").1
    (gostrings.ToUpper "gopath") = "/home/u/go".
Proof.
  apply (persistEnvVar_sets_variable linux noRun LF "/bin/bash" demoProfile
           (persistEnvVar linux LF "/bin/bash" noRun demoProfile "gopath" "/home/u/go").1
           "gopath" "/home/u/go").
  vm_compute. reflexivity.
Defined.

Lemma appendToPATH_twice_witness :
  let w1 := (appendToPATH linux noRun LF "/bin/bash" "$PATH" ":"%char demoProfile
               "/home/u/go/bin").1 in
  isInPATH ":"%char w1 "/home/u/go/bin" = true
  /\ appendToPATH linux noRun LF "/bin/bash" "$PATH" ":"%char w1 "/home/u/go/bin"
     = (w1, None)
  /\ (isInPATH ":"%char demoProfile "/home/u/go/bin" = false ->
      os.Getenv w1 "PATH" = "$PATH" +:+ String ":"%char EmptyString +:+ "/home/u/go/bin").
Proof.
  intros w1.
  apply (appendToPATH_twice linux noRun LF "/bin/bash" "$PATH" ":"%char demoProfile w1
           "/home/u/go/bin").
  - vm_compute. reflexivity.
  - vm_compute. reflexivity.
Defined.


Lemma setupGOPATH_configured_witness :
  setupGOPATH linux noRun LF "/bin/fish" "$PATH" ":"%char (fun _ => None)
    (ScanEnd None) demoConfigured false
  = (demoConfigured, None).
Proof.
  apply (setupGOPATH_configured linux noRun LF "/bin/fish" "$PATH" ":"%char (fun _ => None)
           (ScanEnd None) demoConfigured "/home/u" "/home/u/go" "/home/u/sdk/go").
  - vm_compute. reflexivity.
  - vm_compute. reflexivity.
  - discriminate.
  - vm_compute. reflexivity.
  - vm_compute. reflexivity.
  - vm_compute. reflexivity.
Defined.

Lemma listCmd_marks_witness :
  exists releases dirs,
    Answer 200 (Some demoCatalog) = Answer 200 (Some releases)
    /\ demoGlob demo
         (match os.UserHomeDir demo with
          | inl home => filepath.Join [filepath.Join [home; "sdk"; EmptyString]; "go?*"]
          | inr _ => "go?*"
          end) = inl dirs
    /\ forall mark version,
         In (mark, version) [("*", "go1.16.5"); (" ", "go1.15.13")] ->
         let inDirs := exists p, In p dirs /\ filepath.Base p = version in
         (exists v, In v (installable linux releases) /\ Version.Version v = version)
         /\ (mark = "*" \/ mark = "+" \/ mark = " ")
         /\ (mark = " " <-> ~ inDirs)
         /\ (mark = " " ->
             length ["getgo"; "list"; "all"] = 3
             /\ (["getgo"; "list"; "all"] !! 2 = Some "all"
                 \/ ["getgo"; "list"; "all"] !! 2 = Some "-a"))
         /\ (mark = "*" <->
             inDirs /\ goFound demo <> EmptyString
             /\ demoOut demo (goFound demo) ["tool"; "dist"; "version"] = inl version).
Proof.
  apply (listCmd_marks linux goFound demoOut demoGlob demo ["getgo"; "list"; "all"]
           (Answer 200 (Some demoCatalog)) [("*", "go1.16.5"); (" ", "go1.15.13")]).
  vm_compute. reflexivity.
Defined.

Lemma listCmd_lines_witness :
  exists lines,
    listCmd linux goFound demoOut demoGlob demoNoHome ["getgo"; "list"]
      (Answer 200 (Some demoCatalog)) = Listed lines
    /\ map snd lines
       = if bool_decide (length ["getgo"; "list"] = 3
                         /\ (["getgo"; "list"] !! 2 = Some "all"
                             \/ ["getgo"; "list"] !! 2 = Some "-a"))
         then map Version.Version (installable linux demoCatalog)
         else List.filter
                (fun v => bool_decide
                            (v ∈ installedNames
                                   ["/home/u/sdk/go1.15"; "/home/u/sdk/go1.16.5"] ∅))
                (map Version.Version (installable linux demoCatalog)).
Proof.
  apply (listCmd_lines linux goFound demoOut demoGlob demoNoHome ["getgo"; "list"]
           demoCatalog ["/home/u/sdk/go1.15"; "/home/u/sdk/go1.16.5"] eq_refl "go1.16.5").
  vm_compute. reflexivity.
Defined.

Lemma listVersions_success_iff_witness :
  listVersions linux (Answer 404 None) = inr (ErrHTTPStatus 404).
Proof.
  apply (proj2 (listVersions_success_iff linux) 404%Z None). discriminate.
Defined.

Lemma isInPATH_whole_element_witness :
  isInPATH ":"%char demoConfigured "/home/u/go/bin" = true
  /\ isInPATH ":"%char demoConfigured "/home/u/go" = false.
Proof.
  split.
  - apply (proj2 (isInPATH_whole_element ":"%char demoConfigured "/home/u/go/bin")).
    split; [vm_compute; reflexivity |].
    exists "/usr/bin:/home/u/sdk/go/bin:", EmptyString.
    split; [vm_compute; reflexivity |]. split; [right | left; reflexivity].
    exists "/usr/bin:/home/u/sdk/go/bin". reflexivity.
  - vm_compute. reflexivity.
Defined.
